(** * AI-Resume-Backend: the resume formatter, the completion client and the
      two generation endpoints of [main.py], embedded in Rocq.

    Python [str] values are sequences of Unicode code points, lists are
    Rocq lists, exceptions are an explicit outcome, and the [while] loop of
    [create_pdf_resume] is run with fuel so that its termination is a
    theorem and not an artefact of the embedding. *)

From Stdlib Require Import String Ascii PrimFloat NArith ZArith Bool Arith Lia List.
Import ListNotations.
Local Open Scope N_scope.

(** ** Python strings *)

Module Py.

(** A code point, and a Python [str]. *)
Definition char := N.
Definition str := list char.

(** A literal written in ASCII. *)
Definition py (s : string) : str := map N_of_ascii (list_ascii_of_string s).

Definition LF : char := 10.       (* '\n' *)
Definition SPACE : char := 32.
Definition HYPHEN : char := 45.   (* '-' *)
Definition COLON : char := 58.    (* ':' *)
Definition PIPE : char := 124.    (* '|' *)
Definition BULLET : char := 8226. (* U+2022 *)

(** [not l] for a string or a list: it is empty. *)
Definition is_nil {A : Type} (l : list A) : bool :=
  match l with [] => true | _ => false end.

Fixpoint str_eqb (a b : str) : bool :=
  match a, b with
  | [], [] => true
  | x :: a', y :: b' => (x =? y) && str_eqb a' b'
  | _, _ => false
  end.

(** [c in s] for a one-character [c]. *)
Definition contains (c : char) (s : str) : bool := existsb (N.eqb c) s.

(** [x in [s1, ..., sn]]. *)
Definition in_list (x : str) (l : list str) : bool := existsb (str_eqb x) l.

(** [str.isspace] on one code point: the set CPython's [str.strip()] and the
    regular-expression class [\s] both use. *)
Definition isspace (c : char) : bool :=
  ((9 <=? c) && (c <=? 13)) || ((28 <=? c) && (c <=? 32))
  || (c =? 133) || (c =? 160) || (c =? 5760)
  || ((8192 <=? c) && (c <=? 8202))
  || (c =? 8232) || (c =? 8233) || (c =? 8239) || (c =? 8287) || (c =? 12288).

Fixpoint dropwhile (p : char -> bool) (s : str) : str :=
  match s with
  | [] => []
  | c :: s' => if p c then dropwhile p s' else s
  end.

(** [s.lstrip(chars)], [s.rstrip(chars)] with the set of characters given as a
    predicate. *)
Definition lstrip_by (p : char -> bool) (s : str) : str := dropwhile p s.
Definition rstrip_by (p : char -> bool) (s : str) : str := rev (dropwhile p (rev s)).

(** [s.strip()]. *)
Definition strip (s : str) : str := rstrip_by isspace (lstrip_by isspace s).

(** [s.lstrip(chars)]. *)
Definition lstrip_chars (chars : str) (s : str) : str :=
  lstrip_by (fun c => contains c chars) s.

(** [s.startswith(prefix)]. *)
Fixpoint startswith (prefix s : str) : bool :=
  match prefix, s with
  | [], _ => true
  | p :: prefix', c :: s' => (p =? c) && startswith prefix' s'
  | _ :: _, [] => false
  end.

(** [s.split(sep)] for a one-character separator, as the non-empty list
    first part, other parts. *)
Fixpoint split_parts (sep : char) (s : str) : str * list str :=
  match s with
  | [] => ([], [])
  | c :: s' =>
      let (p, ps) := split_parts sep s' in
      if c =? sep then ([], p :: ps) else (c :: p, ps)
  end.

Definition split (sep : char) (s : str) : list str :=
  let (p, ps) := split_parts sep s in p :: ps.

(** [s.split(sep, 1)]: cut at the first separator only. *)
Fixpoint split_max1 (sep : char) (s : str) : list str :=
  match s with
  | [] => [[]]
  | c :: s' =>
      if c =? sep then [[]; s']
      else match split_max1 sep s' with
           | p :: ps => (c :: p) :: ps
           | [] => [[c]]
           end
  end.

(** [sep.join(parts)]. *)
Fixpoint join (sep : str) (parts : list str) : str :=
  match parts with
  | [] => []
  | [p] => p
  | p :: ps => p ++ sep ++ join sep ps
  end.

(** [s.replace(a, b)] for one-character [a] and [b]. *)
Definition replace (a b : char) (s : str) : str :=
  map (fun c => if c =? a then b else c) s.

(** [str.upper] maps every code point on its own and concatenates the images.
    Inside ASCII the images are fixed here; the Unicode case table for the
    code points from 128 on is the parameter [upper_ext]. *)
Definition upper_char (upper_ext : char -> str) (c : char) : str :=
  if c <? 128 then [if (97 <=? c) && (c <=? 122) then c - 32 else c]
  else upper_ext c.

Definition upper (upper_ext : char -> str) (s : str) : str :=
  flat_map (upper_char upper_ext) s.

End Py.
Import Py.

(** ** Exceptions *)

(** The classes of the exceptions that the code meets, all of them derived
    from [Exception]; [OtherException] stands for any further class of a
    library, by its name. *)
Inductive exn : Type :=
| IndexError | ValueError | KeyError | TypeError | AttributeError
| RequestException | JSONDecodeError | HTTPException | LayoutError
| OtherException (class_name : string).

(** What running a piece of Python gives: a value, a raised exception, or no
    answer within the fuel given to a loop. *)
Inductive outcome (A : Type) : Type :=
| Returns (a : A)
| Raises (e : exn)
| OutOfFuel.
Arguments Returns {A} a.
Arguments Raises {A} e.
Arguments OutOfFuel {A}.

Definition bind {A B : Type} (m : outcome A) (k : A -> outcome B) : outcome B :=
  match m with
  | Returns a => k a
  | Raises e => Raises e
  | OutOfFuel => OutOfFuel
  end.

Notation "x <- m ;; k" := (bind m (fun x => k))
  (at level 61, m at next level, right associativity).
Notation "' pat <- m ;; k" := (bind m (fun x => match x with pat => k end))
  (at level 61, pat pattern, m at next level, right associativity).

(** [l[n]] for a non-negative index. *)
Definition getitem {A : Type} (l : list A) (n : nat) : outcome A :=
  match nth_error l n with
  | Some a => Returns a
  | None => Raises IndexError
  end.

(** [a, b = l]. *)
Definition unpack2 {A : Type} (l : list A) : outcome (A * A) :=
  match l with
  | [a; b] => Returns (a, b)
  | _ => Raises ValueError
  end.

(** ** The layout document *)

Inductive style : Type :=
| name_style | title_style | contact_style | section_title_style
| body_style | bullet_style | date_style | skill_style.

Inductive para : Type := Paragraph (text : str) (sty : style).

(** The elements of [story]. Both tables of the source carry the same table
    style (vertical alignment TOP), which is left implicit. *)
Inductive flowable : Type :=
| P (p : para)
| Table (data : list (list para)) (colWidths : list Z).
Coercion P : para >-> flowable.

Definition SECTION_HEADERS : list str :=
  [py "PROFILE"; py "EMPLOYMENT HISTORY"; py "EDUCATION"; py "SKILLS";
   py "INTERNSHIPS"; py "REFERENCES"].

Definition RECORD_SECTIONS : list str :=
  [py "EMPLOYMENT HISTORY"; py "EDUCATION"; py "INTERNSHIPS"].

(** ** create_pdf_resume *)

Section Formatter.

(** The Unicode upper-casing of the code points outside ASCII. *)
Variable upper_ext : char -> str.

Definition line_upper (line : str) : str := upper upper_ext line.

Definition is_section_header (line : str) : bool :=
  in_list (line_upper line) SECTION_HEADERS.

(** [line.startswith('\u2022') or line.startswith('-')]. *)
Definition is_bullet_line (line : str) : bool :=
  startswith [BULLET] line || startswith [HYPHEN] line.

(** The [if]/[elif]/[else] chain of the loop body below the section-header
    test: the one element appended to [story] for [line]. *)
Definition body_flowable (current_section line : str) : outcome flowable :=
  if in_list current_section RECORD_SECTIONS && contains PIPE line then
    let parts := map strip (split PIPE line) in
    left <- getitem parts 0 ;;
    let right := join (py " | ") (skipn 1 parts) in
    Returns (Table [[Paragraph left body_style; Paragraph right date_style]]
                   [300; 180]%Z)
  else if is_bullet_line line then
    let bullet := strip (lstrip_chars [BULLET; HYPHEN; SPACE] line) in
    Returns (P (Paragraph (BULLET :: SPACE :: bullet) bullet_style))
  else if str_eqb current_section (py "SKILLS") && contains COLON line then
    '(cat, skills) <- unpack2 (split_max1 COLON line) ;;
    Returns (Table [[Paragraph (strip cat ++ [COLON]) body_style;
                     Paragraph (strip skills) skill_style]]
                   [150; 330]%Z)
  else
    Returns (P (Paragraph line body_style)).

(** The variables the scan threads through its iterations. *)
Record scan_state : Type := mkScan {
  i : nat;
  current_section : str;
  story : list flowable
}.

(** One iteration of [while i < len(lines)], entered with the guard true. *)
Definition loop_body (lines : list str) (st : scan_state) : outcome scan_state :=
  line <- getitem lines (i st) ;;
  if is_section_header line then
    let cs := line_upper line in
    Returns (mkScan (i st + 1) cs
                    (story st ++ [P (Paragraph cs section_title_style)]))
  else
    b <- body_flowable (current_section st) line ;;
    Returns (mkScan (i st + 1) (current_section st) (story st ++ [b])).

Fixpoint while_loop (fuel : nat) (lines : list str) (st : scan_state)
  : outcome scan_state :=
  if (i st <? length lines)%nat then
    match fuel with
    | O => OutOfFuel
    | S fuel' => st' <- loop_body lines st ;; while_loop fuel' lines st'
    end
  else Returns st.

(** [[line.strip() for line in resume_text.split('\n') if line.strip()]]; an
    empty string is the only falsy [str]. *)
Definition resume_lines (resume_text : str) : list str :=
  map strip
      (filter (fun line => negb (is_nil (strip line)))
              (split LF resume_text)).

(** One of the three [if i < len(lines)] header statements. *)
Definition header_line (lines : list str) (sty : style) (st : scan_state)
  : outcome scan_state :=
  if (i st <? length lines)%nat then
    line <- getitem lines (i st) ;;
    Returns (mkScan (i st + 1) (current_section st)
                    (story st ++ [P (Paragraph line sty)]))
  else Returns st.

(** The story that the function builds, with [Paragraph] and [Table] kept
    as data: what the code of the function computes when the layout library
    raises nowhere. The function with the library's own failures in it is
    [Rendered.create_pdf_resume] below. *)
Definition create_pdf_resume (resume_text : str) : outcome (list flowable) :=
  let lines := resume_lines resume_text in
  st <- header_line lines name_style (mkScan 0 [] []) ;;
  st <- header_line lines title_style st ;;
  st <- header_line lines contact_style st ;;
  st <- while_loop (length lines) lines (mkScan (i st) [] (story st)) ;;
  Returns (story st).

End Formatter.

(** ** create_pdf_resume with the layout library in it

    [Paragraph(text, style)] parses [text] as markup when the paragraph is
    built and raises for a text it rejects (a [ValueError] for markup that
    is not well formed); [doc.build(story)] raises for a story it cannot lay
    out on pages (a [LayoutError] for a block that fits no page). Which texts
    and stories the library rejects, and with which exception, is not in the
    source: it is the two parameters below. *)

Module Rendered.

Section Library.

Variable upper_ext : char -> str.

(** The exception that [Paragraph(text, sty)] raises, and the one that
    [doc.build(story)] raises, when they raise. *)
Variable paragraph_error : str -> style -> option exn.
Variable build_error : list flowable -> option exn.

(** [Paragraph(text, sty)]. *)
Definition new_paragraph (text : str) (sty : style) : outcome para :=
  match paragraph_error text sty with
  | None => Returns (Paragraph text sty)
  | Some e => Raises e
  end.

Definition body_flowable (current_section line : str) : outcome flowable :=
  if in_list current_section RECORD_SECTIONS && contains PIPE line then
    let parts := map strip (split PIPE line) in
    left <- getitem parts 0 ;;
    let right := join (py " | ") (skipn 1 parts) in
    l <- new_paragraph left body_style ;;
    r <- new_paragraph right date_style ;;
    Returns (Table [[l; r]] [300; 180]%Z)
  else if is_bullet_line line then
    let bullet := strip (lstrip_chars [BULLET; HYPHEN; SPACE] line) in
    p <- new_paragraph (BULLET :: SPACE :: bullet) bullet_style ;;
    Returns (P p)
  else if str_eqb current_section (py "SKILLS") && contains COLON line then
    '(cat, skills) <- unpack2 (split_max1 COLON line) ;;
    l <- new_paragraph (strip cat ++ [COLON]) body_style ;;
    r <- new_paragraph (strip skills) skill_style ;;
    Returns (Table [[l; r]] [150; 330]%Z)
  else
    p <- new_paragraph line body_style ;;
    Returns (P p).

Definition loop_body (lines : list str) (st : scan_state) : outcome scan_state :=
  line <- getitem lines (i st) ;;
  if is_section_header upper_ext line then
    let cs := line_upper upper_ext line in
    p <- new_paragraph cs section_title_style ;;
    Returns (mkScan (i st + 1) cs (story st ++ [P p]))
  else
    b <- body_flowable (current_section st) line ;;
    Returns (mkScan (i st + 1) (current_section st) (story st ++ [b])).

Fixpoint while_loop (fuel : nat) (lines : list str) (st : scan_state)
  : outcome scan_state :=
  if (i st <? length lines)%nat then
    match fuel with
    | O => OutOfFuel
    | S fuel' => st' <- loop_body lines st ;; while_loop fuel' lines st'
    end
  else Returns st.

Definition header_line (lines : list str) (sty : style) (st : scan_state)
  : outcome scan_state :=
  if (i st <? length lines)%nat then
    line <- getitem lines (i st) ;;
    p <- new_paragraph line sty ;;
    Returns (mkScan (i st + 1) (current_section st) (story st ++ [P p]))
  else Returns st.

(** [doc.build(story)]. *)
Definition doc_build (story : list flowable) : outcome (list flowable) :=
  match build_error story with
  | None => Returns story
  | Some e => Raises e
  end.

(** The buffer the function returns holds the pages the library makes of
    [story]; [story] stands for it here. *)
Definition create_pdf_resume (resume_text : str) : outcome (list flowable) :=
  let lines := resume_lines resume_text in
  st <- header_line lines name_style (mkScan 0 [] []) ;;
  st <- header_line lines title_style st ;;
  st <- header_line lines contact_style st ;;
  st <- while_loop (length lines) lines (mkScan (i st) [] (story st)) ;;
  doc_build (story st).

End Library.

End Rendered.

(** ** Regular expressions of the cleanup

    The backtracking matcher of Python's [re], for the constructs the four
    cleanup patterns are written with, under the flag IGNORECASE and without
    MULTILINE or DOTALL. *)

Module Re.

Inductive charclass : Type :=
| Dot      (* .  : any character but the line feed *)
| Space.   (* \s *)

Inductive atom : Type :=
| Bol                          (* ^ : only at the start of the string *)
| Eol                          (* $ : at the end, or before a final line feed *)
| Lit (c : char)               (* a literal character *)
| Alt (alts : list str)        (* (w1|w2|...) of literal words *)
| Opt (c : char)               (* c? *)
| Star (cls : charclass)       (* cls*  *)
| StarLazy (cls : charclass).  (* cls*? *)

Definition regex := list atom.

Definition lits (w : string) : regex := map Lit (py w).

(** A literal character of a pattern against a character of the text under
    IGNORECASE: the two cases of an ASCII letter, and the code points
    U+0130 and U+0131 for i, U+017F for s, U+212A for k. *)
Definition lower_ascii (c : char) : char :=
  if (65 <=? c) && (c <=? 90) then c + 32 else c.

Definition ci_eqb (p c : char) : bool :=
  (lower_ascii p =? lower_ascii c)
  || ((lower_ascii p =? 105) && ((c =? 304) || (c =? 305)))
  || ((lower_ascii p =? 115) && (c =? 383))
  || ((lower_ascii p =? 107) && (c =? 8490)).

Definition in_class (cls : charclass) (c : char) : bool :=
  match cls with
  | Dot => negb (c =? LF)
  | Space => isspace c
  end.

Definition at_eol (s : str) : bool :=
  match s with
  | [] => true
  | [c] => c =? LF
  | _ => false
  end.

(** A literal word at the head of [s], under IGNORECASE: the rest of [s]. *)
Fixpoint word_ci (w s : str) : option str :=
  match w, s with
  | [], _ => Some s
  | p :: w', c :: s' => if ci_eqb p c then word_ci w' s' else None
  | _ :: _, [] => None
  end.

(** [rmatch r bos s]: the pattern [r] matched at the head of [s], where [bos]
    tells whether [s] is the whole string; the answer is the text left after
    the first match in the order in which backtracking visits them. *)
Fixpoint rmatch (r : regex) : bool -> str -> option str :=
  match r with
  | [] => fun _ s => Some s
  | a :: r' =>
      let k := rmatch r' in
      match a with
      | Bol => fun bos s => if bos then k bos s else None
      | Eol => fun bos s => if at_eol s then k bos s else None
      | Lit p => fun _ s =>
          match s with
          | c :: s' => if ci_eqb p c then k false s' else None
          | [] => None
          end
      | Alt alts => fun bos s =>
          (fix try (ws : list str) : option str :=
             match ws with
             | [] => None
             | w :: ws' =>
                 match word_ci w s with
                 | Some s' =>
                     match k (bos && is_nil w) s' with
                     | Some rest => Some rest
                     | None => try ws'
                     end
                 | None => try ws'
                 end
             end) alts
      | Opt p => fun bos s =>
          match s with
          | c :: s' =>
              if ci_eqb p c then
                match k false s' with
                | Some rest => Some rest
                | None => k bos s
                end
              else k bos s
          | [] => k bos s
          end
      | Star cls =>
          fix more (bos : bool) (s : str) : option str :=
            match s with
            | c :: s' =>
                if in_class cls c then
                  match more false s' with
                  | Some rest => Some rest
                  | None => k bos s
                  end
                else k bos s
            | [] => k bos s
            end
      | StarLazy cls =>
          fix more (bos : bool) (s : str) : option str :=
            match k bos s with
            | Some rest => Some rest
            | None =>
                match s with
                | c :: s' => if in_class cls c then more false s' else None
                | [] => None
                end
            end
      end
  end.

(** The number of characters of the match at the head of [s]. *)
Definition match_len (r : regex) (bos : bool) (s : str) : option nat :=
  match rmatch r bos s with
  | Some rest => Some (length s - length rest)%nat
  | None => None
  end.

(** [re.sub(r, '', s)]: from left to right, every match is removed and the
    search resumes where the match ended. [skip] counts the characters of the
    current match that are still to be removed. A match of no character
    would remove nothing; the patterns of the cleanup have none. *)
Fixpoint sub_from (r : regex) (bos : bool) (skip : nat) (s : str) : str :=
  match s with
  | [] => []
  | c :: s' =>
      match skip with
      | S n => sub_from r false n s'
      | O =>
          match match_len r bos s with
          | Some (S n) => sub_from r false n s'
          | _ => c :: sub_from r false 0 s'
          end
      end
  end.

Definition sub (r : regex) (s : str) : str := sub_from r true 0 s.

(** [re.search(r, s) is not None]. *)
Fixpoint search_from (r : regex) (bos : bool) (s : str) : bool :=
  match rmatch r bos s with
  | Some _ => true
  | None =>
      match s with
      | [] => false
      | _ :: s' => search_from r false s'
      end
  end.

Definition search (r : regex) (s : str) : bool := search_from r true s.

End Re.

(** ** The cleanup of generate_resume_text *)

(** [^(Here is|Here's).*?resume:?\s*] *)
Definition RE_HERE_IS : Re.regex :=
  [Re.Bol; Re.Alt [py "Here is"; py "Here's"]; Re.StarLazy Re.Dot]
  ++ Re.lits "resume" ++ [Re.Opt COLON; Re.Star Re.Space].

(** [^.*formatted resume.*?:\s*] *)
Definition RE_FORMATTED : Re.regex :=
  [Re.Bol; Re.Star Re.Dot] ++ Re.lits "formatted resume"
  ++ [Re.StarLazy Re.Dot; Re.Lit COLON; Re.Star Re.Space].

(** [I hope this helps.*$] *)
Definition RE_I_HOPE : Re.regex :=
  Re.lits "I hope this helps" ++ [Re.Star Re.Dot; Re.Eol].

(** [^.*?based on.*?:\s*] *)
Definition RE_BASED_ON : Re.regex :=
  [Re.Bol; Re.StarLazy Re.Dot] ++ Re.lits "based on"
  ++ [Re.StarLazy Re.Dot; Re.Lit COLON; Re.Star Re.Space].

Definition CLEANUP_PATTERNS : list Re.regex :=
  [RE_HERE_IS; RE_FORMATTED; RE_I_HOPE; RE_BASED_ON].

(** The four [re.sub] statements, in their order. *)
Definition remove_intro_outro (content : str) : str :=
  let content := Re.sub RE_HERE_IS content in
  let content := Re.sub RE_FORMATTED content in
  let content := Re.sub RE_I_HOPE content in
  let content := Re.sub RE_BASED_ON content in
  content.

(** The cleanup pipeline on the text of the first choice: the [strip()] of
    the extraction, the four substitutions, and the [strip()] of the
    [return]. *)
Definition cleanup (content : str) : str :=
  let content := strip content in
  let content := remove_intro_outro content in
  strip content.

(** ** JSON values as Python objects *)

(** What [response.json()] and [request.get_json()] return. An object is the
    list of its members, one per key. *)
#[local] Set Warnings "-register-all".
Inductive json : Type :=
| JNull
| JBool (b : bool)
| JInt (z : Z)
| JFloat (f : float)
| JStr (s : str)
| JArr (items : list json)
| JObj (members : list (str * json)).

Fixpoint lookup (key : str) (members : list (str * json)) : option json :=
  match members with
  | [] => None
  | (k, v) :: members' => if str_eqb key k then Some v else lookup key members'
  end.

(** The truth value of an object in a condition. *)
Definition truthy (v : json) : bool :=
  match v with
  | JNull => false
  | JBool b => b
  | JInt z => negb (z =? 0)%Z
  | JFloat f => negb (PrimFloat.eqb f 0%float)
  | JStr s => negb (is_nil s)
  | JArr items => negb (is_nil items)
  | JObj members => negb (is_nil members)
  end.

(** [w in s] for two strings. *)
Fixpoint is_substring (w s : str) : bool :=
  startswith w s ||
  match s with
  | [] => false
  | _ :: s' => is_substring w s'
  end.

Definition is_str (key : str) (v : json) : bool :=
  match v with
  | JStr s => str_eqb key s
  | _ => false
  end.

(** [key in v]. *)
Definition py_in (key : str) (v : json) : outcome bool :=
  match v with
  | JObj members =>
      Returns (match lookup key members with Some _ => true | None => false end)
  | JArr items => Returns (existsb (is_str key) items)
  | JStr s => Returns (is_substring key s)
  | _ => Raises TypeError
  end.

(** [v[key]] for a string [key]. *)
Definition subscript (v : json) (key : str) : outcome json :=
  match v with
  | JObj members =>
      match lookup key members with
      | Some x => Returns x
      | None => Raises KeyError
      end
  | _ => Raises TypeError
  end.

(** [v[n]] for an integer [n >= 0]; the keys of an object are strings. *)
Definition subscript_int (v : json) (n : nat) : outcome json :=
  match v with
  | JArr items => getitem items n
  | JStr s =>
      match nth_error s n with
      | Some c => Returns (JStr [c])
      | None => Raises IndexError
      end
  | JObj _ => Raises KeyError
  | _ => Raises TypeError
  end.

(** [len(v)]. *)
Definition py_len (v : json) : outcome nat :=
  match v with
  | JArr items => Returns (length items)
  | JStr s => Returns (length s)
  | JObj members => Returns (length members)
  | _ => Raises TypeError
  end.

(** [v.strip()]. *)
Definition py_strip (v : json) : outcome str :=
  match v with
  | JStr s => Returns (strip s)
  | _ => Raises AttributeError
  end.

(** [v.get(key, default)]. *)
Definition py_get (v : json) (key : str) (default : json) : outcome json :=
  match v with
  | JObj members =>
      Returns (match lookup key members with Some x => x | None => default end)
  | _ => Raises AttributeError
  end.

(** ** The outside world of a request *)

(** The prompt is the fixed template with these values put in, in this order:
    name, phone, email, summary, experience, education, skills. *)
Definition prompt := list json.

(** What [requests.post] does when it is called: it raises, or it returns a
    response with a status code and a body that [response.json()] parses
    ([Some]) or rejects ([None]). *)
Inductive post_result : Type :=
| PostRaises
| PostResponse (status_code : Z) (body : option json).

(** What [request.get_json()] does: it raises, or it returns the parsed
    body. *)
Inductive get_json_result : Type :=
| GetJsonRaises
| GetJsonReturns (data : json).

(** The outbound calls made so far, oldest first. *)
Definition calls := list prompt.

(** A computation that may call the completion endpoint. *)
Definition io (A : Type) : Type := calls -> outcome A * calls.

Definition io_ret {A : Type} (a : A) : io A := fun t => (Returns a, t).

Definition lift {A : Type} (m : outcome A) : io A := fun t => (m, t).

Definition io_bind {A B : Type} (m : io A) (k : A -> io B) : io B :=
  fun t =>
    match m t with
    | (Returns a, t') => k a t'
    | (Raises e, t') => (Raises e, t')
    | (OutOfFuel, t') => (OutOfFuel, t')
    end.

Notation "x <~ m ;; k" := (io_bind m (fun x => k))
  (at level 61, m at next level, right associativity).

(** [try: m  except Exception as e: h e]. *)
Definition try_except {A : Type} (m : io A) (h : exn -> io A) : io A :=
  fun t =>
    match m t with
    | (Raises e, t') => h e t'
    | r => r
    end.

(** ** create_resume_prompt and generate_resume_text *)

Definition create_resume_prompt (data : json) : outcome prompt :=
  name <- py_get data (py "name") (JStr []) ;;
  phone <- py_get data (py "phone") (JStr []) ;;
  email <- py_get data (py "email") (JStr []) ;;
  summary <- py_get data (py "summary") (JStr []) ;;
  experience <- py_get data (py "experience") (JStr []) ;;
  education <- py_get data (py "education") (JStr []) ;;
  skills <- py_get data (py "skills") (JStr []) ;;
  Returns [name; phone; email; summary; experience; education; skills].

Section Client.

(** The answer of the completion endpoint to this request. *)
Variable net : post_result.

(** [requests.post(GROQ_ENDPOINT, headers=headers, json=payload)]. *)
Definition requests_post (payload : prompt) : io post_result :=
  fun t =>
    (match net with
     | PostRaises => Raises RequestException
     | PostResponse _ _ => Returns net
     end, t ++ [payload]).

(** [response.json()]. *)
Definition response_json (response : post_result) : outcome json :=
  match response with
  | PostResponse _ (Some result) => Returns result
  | _ => Raises JSONDecodeError
  end.

(** The condition ["choices" in result and len(result["choices"]) > 0]. *)
Definition has_choices (result : json) : outcome bool :=
  present <- py_in (py "choices") result ;;
  if present then
    choices <- subscript result (py "choices") ;;
    n <- py_len choices ;;
    Returns (0 <? n)%nat
  else Returns false.

(** The [if] statement of the [try] block with the extraction and the
    cleanup in it; [None] is the value of a function that ends without a
    [return]. *)
Definition extract_content (result : json) : outcome (option str) :=
  ok <- has_choices result ;;
  if ok then
    choices <- subscript result (py "choices") ;;
    choice <- subscript_int choices 0 ;;
    message <- subscript choice (py "message") ;;
    content <- subscript message (py "content") ;;
    content <- py_strip content ;;
    Returns (Some (strip (remove_intro_outro content)))
  else Returns None.

(** The body of [try]. *)
Definition generate_resume_text_try (data : json) : io (option str) :=
  payload <~ lift (create_resume_prompt data) ;;
  response <~ requests_post payload ;;
  lift (result <- response_json response ;; extract_content result).

Definition generate_resume_text (data : json) : io (option str) :=
  try_except (generate_resume_text_try data) (fun _ => io_ret None).

(** ** The endpoints *)

Inductive error_text : Type :=
| NameAndEmailRequired      (* "Name and email are required" *)
| FailedToGenerate          (* "Failed to generate resume" *)
| ExceptionText (e : exn).  (* str(e) *)

Inductive response_body : Type :=
| ErrorJson (error : error_text)                          (* {"error": ...} *)
| ResumeJson (resume : str)                               (* {"resume": ..., "success": true} *)
| PdfFile (pdf : list flowable) (download_name : str).    (* send_file(...) *)

Record http_response : Type := mkResponse {
  status : Z;
  body : response_body
}.

(** [not data or not data.get('name') or not data.get('email')]. *)
Definition name_or_email_missing (data : json) : outcome bool :=
  if negb (truthy data) then Returns true
  else
    name <- py_get data (py "name") JNull ;;
    if negb (truthy name) then Returns true
    else
      email <- py_get data (py "email") JNull ;;
      Returns (negb (truthy email)).

Definition request_get_json (req : get_json_result) : outcome json :=
  match req with
  | GetJsonRaises => Raises HTTPException
  | GetJsonReturns data => Returns data
  end.

Definition generate_resume (req : get_json_result) : io http_response :=
  try_except
    (data <~ lift (request_get_json req) ;;
     missing <~ lift (name_or_email_missing data) ;;
     if missing then io_ret (mkResponse 400 (ErrorJson NameAndEmailRequired))
     else
       resume_text <~ generate_resume_text data ;;
       match resume_text with   (* if resume_text: *)
       | Some (c :: text) => io_ret (mkResponse 200 (ResumeJson (c :: text)))
       | _ => io_ret (mkResponse 500 (ErrorJson FailedToGenerate))
       end)
    (fun e => io_ret (mkResponse 500 (ErrorJson (ExceptionText e)))).

(** [data.get('name', 'resume').replace(' ', '_')]. *)
Definition file_stem (data : json) : outcome str :=
  name <- py_get data (py "name") (JStr (py "resume")) ;;
  match name with
  | JStr s => Returns (replace SPACE 95 s)
  | _ => Raises AttributeError
  end.

Variable upper_ext : char -> str.

(** The layout library, as in [Rendered], and the exception that
    [send_file] raises for a download name, when it raises: a [ValueError]
    for a name that it cannot put in a header of the response, such as one
    with a line feed. *)
Variable paragraph_error : str -> style -> option exn.
Variable build_error : list flowable -> option exn.
Variable send_file_error : str -> option exn.

(** [send_file(pdf_buffer, as_attachment=True, download_name=filename,
    mimetype='application/pdf')]. *)
Definition send_file (pdf_buffer : list flowable) (download_name : str)
  : outcome http_response :=
  match send_file_error download_name with
  | None => Returns (mkResponse 200 (PdfFile pdf_buffer download_name))
  | Some e => Raises e
  end.

Definition generate_pdf_resume (req : get_json_result) : io http_response :=
  try_except
    (data <~ lift (request_get_json req) ;;
     missing <~ lift (name_or_email_missing data) ;;
     if missing then io_ret (mkResponse 400 (ErrorJson NameAndEmailRequired))
     else
       resume_text <~ generate_resume_text data ;;
       match resume_text with   (* if not resume_text: ... *)
       | Some (c :: text) =>
           pdf_buffer <~ lift (Rendered.create_pdf_resume upper_ext
                                 paragraph_error build_error (c :: text)) ;;
           stem <~ lift (file_stem data) ;;
           lift (send_file pdf_buffer (stem ++ py "_resume.pdf"))
       | _ => io_ret (mkResponse 500 (ErrorJson FailedToGenerate))
       end)
    (fun e => io_ret (mkResponse 500 (ErrorJson (ExceptionText e)))).

End Client.

(** ** Views used by the statements *)

(** The header blocks of the first up-to-three lines: name, title, contact,
    in this order, one block per line there is. *)
Definition header_blocks (lines : list str) : list flowable :=
  map (fun '(line, sty) => P (Paragraph line sty))
      (combine lines [name_style; title_style; contact_style]).

(** An element of [story] that is a section-header block. *)
Definition is_section_block (b : flowable) : bool :=
  match b with
  | P (Paragraph _ section_title_style) => true
  | _ => false
  end.

(** The text of the first choice of a parsed completion body, when the body
    is an object whose [choices] is an array that starts with an object whose
    [message] is an object whose [content] is a string. *)
Definition first_choice_content (result : json) : option str :=
  match result with
  | JObj members =>
      match lookup (py "choices") members with
      | Some (JArr (JObj choice :: _)) =>
          match lookup (py "message") choice with
          | Some (JObj message) =>
              match lookup (py "content") message with
              | Some (JStr content) => Some content
              | _ => None
              end
          | _ => None
          end
      | _ => None
      end
  | _ => None
  end.



(** A request body that passes the check of the endpoints: an object with a
    name and an email that count as true. *)
Definition has_name_and_email (data : json) : Prop :=
  exists members name email,
    data = JObj members
    /\ lookup (py "name") members = Some name /\ truthy name = true
    /\ lookup (py "email") members = Some email /\ truthy email = true.



(** The first exception among those of the elements of a list, in the order
    of the list. *)
Fixpoint first_error {A : Type} (f : A -> option exn) (l : list A) : option exn :=
  match l with
  | [] => None
  | a :: l' =>
      match f a with
      | Some e => Some e
      | None => first_error f l'
      end
  end.

(** The exception that the library raises when the paragraphs of a block are
    built, in their order in the block. *)
Definition para_error (paragraph_error : str -> style -> option exn)
    (p : para) : option exn :=
  match p with Paragraph text sty => paragraph_error text sty end.

Definition flowable_error (paragraph_error : str -> style -> option exn)
    (b : flowable) : option exn :=
  match b with
  | P p => para_error paragraph_error p
  | Table data _ => first_error (first_error (para_error paragraph_error)) data
  end.

(** What the library makes of a story: the exception of the first paragraph
    it rejects; else the exception of the layout; else, when it takes every
    paragraph and lays the story out, the story. *)
Definition rendered (paragraph_error : str -> style -> option exn)
    (build_error : list flowable -> option exn) (story : list flowable)
  : outcome (list flowable) :=
  match first_error (flowable_error paragraph_error) story with
  | Some e => Raises e
  | None =>
      match build_error story with
      | Some e => Raises e
      | None => Returns story
      end
  end.

(** A library that takes everything. *)
Definition accepts_all_paragraphs : str -> style -> option exn := fun _ _ => None.
Definition builds_all : list flowable -> option exn := fun _ => None.
Definition sends_all : str -> option exn := fun _ => None.

(** A library that rejects the markup "<b>unclosed", whose tag is opened and
    never closed, as the layout library does. *)
Definition rejects_unclosed_tag : str -> style -> option exn :=
  fun text _ => if str_eqb text (py "<b>unclosed") then Some ValueError else None.

(** ** The inputs of the worked examples *)

(** A case table that leaves every code point outside ASCII as it is. *)
Definition upper_ext_id : char -> str := fun c => [c].

(** The resume of the worked example, line by line. *)
Definition example_text : str :=
  join [LF]
    [py "Jane Doe"; py "Software Engineer"; py "555-1234 | jane@x.com";
     py "PROFILE"; py "Experienced engineer.";
     py "EMPLOYMENT HISTORY"; py "Engineer | Acme Corp | 2020-2023";
     BULLET :: py " Built things";
     py "SKILLS"; py "Languages: Python, Go"].

(** A completion that repeats its preamble. *)
Definition repeated_preamble : str :=
  py "Here is the resume: Here is the resume: Jane Doe".

(** A completion body with one choice whose message has the text
    "Jane Doe". *)
Definition body_with_choice : json :=
  JObj [(py "choices",
         JArr [JObj [(py "message",
                      JObj [(py "role", JStr (py "assistant"));
                            (py "content", JStr (py "Jane Doe"))])]])].

(** A completion body whose one choice has no message. *)
Definition body_without_message : json :=
  JObj [(py "choices", JArr [JObj [(py "index", JInt 0)]])].

Definition example_request : json :=
  JObj [(py "name", JStr (py "Jane Doe")); (py "email", JStr (py "jane@x.com"))].

(** ** test_api *)

(** The three answers of the connection test: the success message with the
    model name, the failure message, and the text of an exception. *)
Inductive test_api_body : Type :=
| ConnectionSuccessful      (* {"status": "API connection successful!", "model": GROQ_MODEL} *)
| ConnectionFailed          (* {"error": "API connection failed"} *)
| TestApiException (e : exn).  (* {"error": str(e)} *)

(** The payload of the connection test has the one message "Say hello!". *)
Definition test_api_payload : prompt := [JStr (py "Say hello!")].

(** [response.status_code]. *)
Definition response_status_code (response : post_result) : outcome Z :=
  match response with
  | PostResponse status_code _ => Returns status_code
  | PostRaises => Raises AttributeError
  end.

Definition test_api (net : post_result) : io (Z * test_api_body) :=
  try_except
    (response <~ requests_post net test_api_payload ;;
     status_code <~ lift (response_status_code response) ;;
     if (status_code =? 200)%Z then io_ret (200%Z, ConnectionSuccessful)
     else io_ret (500%Z, ConnectionFailed))
    (fun e => io_ret (500%Z, TestApiException e)).

(** ** More views used by the statements *)

(** [a] is what is left of [b] after some of its characters are deleted. *)
Inductive subseq {A : Type} : list A -> list A -> Prop :=
| subseq_nil : subseq [] []
| subseq_skip (x : A) (a b : list A) : subseq a b -> subseq a (x :: b)
| subseq_keep (x : A) (a b : list A) : subseq a b -> subseq (x :: a) (x :: b).

(** The values [current_section] can have: empty, or a section name. *)
Definition SECTION_STATES : list str := [] :: SECTION_HEADERS.

(** How a block of the document comes from its line: a header paragraph of
    the line itself; a section-header paragraph of the upper-cased line; or
    the block of the [if]/[elif] chain under some section. *)
Definition block_of_line (upper_ext : char -> str) (line : str) (b : flowable)
  : Prop :=
  (exists sty, In sty [name_style; title_style; contact_style]
               /\ b = P (Paragraph line sty))
  \/ (is_section_header upper_ext line = true
      /\ In (line_upper upper_ext line) SECTION_HEADERS
      /\ b = P (Paragraph (line_upper upper_ext line) section_title_style))
  \/ (is_section_header upper_ext line = false
      /\ exists cs, In cs SECTION_STATES /\ body_flowable cs line = Returns b).

(** The shapes a block of the document can have. *)
Definition block_shape (b : flowable) : Prop :=
  match b with
  | P (Paragraph text sty) =>
      match sty with
      | section_title_style => In text SECTION_HEADERS
      | bullet_style => exists bullet, text = BULLET :: SPACE :: bullet
      | name_style | title_style | contact_style | body_style => True
      | date_style | skill_style => False
      end
  | Table [[Paragraph _ body_style; Paragraph _ date_style]] [300; 180]%Z => True
  | Table [[Paragraph label body_style; Paragraph _ skill_style]] [150; 330]%Z =>
      exists cat, label = cat ++ [COLON]
  | Table _ _ => False
  end.

(** Two strings that differ at most in the case of their ASCII letters. *)
Definition same_up_to_ascii_case (a b : str) : Prop :=
  Forall2 (fun x y => Re.lower_ascii x = Re.lower_ascii y) a b.

(** The text a completion gives once it is cleaned, when there is one. *)
Definition completion_text (net : post_result) : option str :=
  match net with
  | PostResponse _ (Some result) => option_map cleanup (first_choice_content result)
  | _ => None
  end.

(** * Properties *)

(** ** Strings *)

Lemma str_eqb_eq (a b : str) : str_eqb a b = true <-> a = b.
Proof.
  revert b; induction a as [|x a IH]; intros [|y b]; simpl; split;
    try congruence; try reflexivity.
  - intros H. apply andb_true_iff in H as [Hx Hab].
    apply N.eqb_eq in Hx. apply IH in Hab. congruence.
  - intros H. injection H as -> ->. rewrite N.eqb_refl. simpl. now apply IH.
Qed.

Lemma str_eqb_refl (a : str) : str_eqb a a = true.
Proof. now apply str_eqb_eq. Qed.

Lemma in_list_In (x : str) (l : list str) : in_list x l = true <-> In x l.
Proof.
  unfold in_list. rewrite existsb_exists. split.
  - intros (y & Hy & E). apply str_eqb_eq in E. now subst.
  - intros H. exists x. split; [assumption | apply str_eqb_refl].
Qed.

Lemma contains_In (c : char) (s : str) : contains c s = true <-> In c s.
Proof.
  unfold contains. rewrite existsb_exists. split.
  - intros (y & Hy & E). apply N.eqb_eq in E. now subst.
  - intros H. exists c. split; [assumption | apply N.eqb_refl].
Qed.

(** [split] cuts at every separator and nowhere else. *)
Lemma split_parts_spec (sep : char) (s : str) :
  let (p, ps) := split_parts sep s in
  join [sep] (p :: ps) = s
  /\ Forall (fun q => contains sep q = false) (p :: ps)
  /\ (contains sep s = true -> ps <> []).
Proof.
  induction s as [|c s IH]; simpl.
  - repeat split; [repeat constructor | discriminate].
  - destruct (split_parts sep s) as [p ps]. destruct IH as (Hj & Hf & Hc).
    rewrite (N.eqb_sym sep c).
    destruct (N.eqb_spec c sep) as [->|Hne].
    + repeat split.
      * rewrite Hj. reflexivity.
      * constructor; [reflexivity | assumption].
      * discriminate.
    + repeat split.
      * simpl in *. destruct ps; simpl; now rewrite <- Hj.
      * inversion Hf; subst. constructor; [|assumption].
        simpl. apply N.eqb_neq in Hne. rewrite N.eqb_sym, Hne. assumption.
      * simpl. intros H. apply Hc. assumption.
Qed.

Lemma split_spec (sep : char) (s : str) :
  exists p ps,
    split sep s = p :: ps
    /\ join [sep] (p :: ps) = s
    /\ Forall (fun q => contains sep q = false) (p :: ps)
    /\ (contains sep s = true -> ps <> []).
Proof.
  unfold split. pose proof (split_parts_spec sep s) as H.
  destruct (split_parts sep s) as [p ps]. exists p, ps. tauto.
Qed.

(** [split(sep, 1)] of a string with a separator has two parts: what is before
    the first separator and what is after it. *)
Lemma split_max1_spec (sep : char) (s : str) :
  contains sep s = true ->
  exists a b,
    split_max1 sep s = [a; b] /\ s = a ++ sep :: b /\ contains sep a = false.
Proof.
  induction s as [|c s IH]; simpl; [discriminate|].
  rewrite (N.eqb_sym sep c).
  destruct (N.eqb_spec c sep) as [->|Hne]; simpl.
  - intros _. exists [], s. repeat split.
  - intros H. destruct (IH H) as (a & b & E & -> & Ha).
    exists (c :: a), b. rewrite E. repeat split. simpl.
    apply N.eqb_neq in Hne. rewrite N.eqb_sym, Hne. assumption.
Qed.

(** ** The scan of create_pdf_resume *)

Section FormatterFacts.

Variable upper_ext : char -> str.




(** The [if]/[elif] chain always appends an element: its two partial
    operations are guarded. *)
Lemma body_flowable_total (cs line : str) :
  exists b, body_flowable cs line = Returns b.
Proof.
  unfold body_flowable.
  destruct (in_list cs RECORD_SECTIONS && contains PIPE line) eqn:E1.
  - destruct (split_spec PIPE line) as (p & ps & -> & _).
    simpl. eexists; reflexivity.
  - destruct (is_bullet_line line); [eexists; reflexivity|].
    destruct (str_eqb cs (py "SKILLS") && contains COLON line) eqn:E3;
      [|eexists; reflexivity].
    apply andb_true_iff in E3 as [_ Hc].
    destruct (split_max1_spec COLON line Hc) as (a & b & -> & _).
    simpl. eexists; reflexivity.
Qed.

(** One iteration on the line at position [i]. *)
Lemma loop_body_at (lines : list str) (st : scan_state) (line : str) :
  nth_error lines (i st) = Some line ->
  loop_body upper_ext lines st =
    if is_section_header upper_ext line then
      Returns (mkScan (i st + 1) (line_upper upper_ext line)
                 (story st ++ [P (Paragraph (line_upper upper_ext line) section_title_style)]))
    else
      b <- body_flowable (current_section st) line ;;
      Returns (mkScan (i st + 1) (current_section st) (story st ++ [b])).
Proof.
  intros H. unfold loop_body, getitem. rewrite H. reflexivity.
Qed.

Lemma while_loop_step (fuel : nat) (lines : list str) (st : scan_state) (line : str) :
  nth_error lines (i st) = Some line ->
  while_loop upper_ext (S fuel) lines st =
    st' <- loop_body upper_ext lines st ;; while_loop upper_ext fuel lines st'.
Proof.
  intros H. simpl.
  assert (Hlt : (i st < length lines)%nat)
    by (apply nth_error_Some; congruence).
  apply Nat.ltb_lt in Hlt. now rewrite Hlt.
Qed.

Lemma while_loop_done (fuel : nat) (lines : list str) (st : scan_state) :
  (length lines <= i st)%nat -> while_loop upper_ext fuel lines st = Returns st.
Proof.
  intros H. apply Nat.ltb_ge in H.
  destruct fuel; simpl; now rewrite H.
Qed.

(** One iteration never fails, and moves to the next line. *)
Lemma loop_body_total (lines : list str) (st : scan_state) :
  (i st < length lines)%nat ->
  exists st', loop_body upper_ext lines st = Returns st' /\ i st' = (i st + 1)%nat.
Proof.
  intros Hlt. destruct (nth_error lines (i st)) as [line|] eqn:E.
  - rewrite (loop_body_at _ _ _ E).
    destruct (is_section_header upper_ext line).
    + eexists; split; reflexivity.
    + destruct (body_flowable_total (current_section st) line) as (b & ->).
      eexists; split; reflexivity.
  - apply nth_error_None in E. lia.
Qed.

(** The loop ends within as many iterations as there are lines left. *)
Lemma while_loop_total (fuel : nat) (lines : list str) (st : scan_state) :
  (length lines - i st <= fuel)%nat ->
  exists st', while_loop upper_ext fuel lines st = Returns st'.
Proof.
  revert st. induction fuel as [|fuel IH]; intros st Hf.
  - exists st. apply while_loop_done. lia.
  - destruct (Nat.ltb_spec (i st) (length lines)) as [Hlt|Hge].
    + destruct (loop_body_total lines st Hlt) as (st' & Hb & Hi).
      destruct (nth_error lines (i st)) as [line|] eqn:E;
        [|apply nth_error_None in E; lia].
      rewrite (while_loop_step _ _ _ _ E), Hb. simpl.
      apply IH. lia.
    + exists st. now apply while_loop_done.
Qed.

(** The three header statements, then the scan from the fourth line on with
    an empty [current_section]. *)
Lemma create_pdf_resume_scan (resume_text : str) :
  create_pdf_resume upper_ext resume_text =
    st <- while_loop upper_ext (length (resume_lines resume_text))
            (resume_lines resume_text)
            (mkScan (Nat.min 3 (length (resume_lines resume_text))) []
                    (header_blocks (resume_lines resume_text))) ;;
    Returns (story st).
Proof.
  unfold create_pdf_resume.
  destruct (resume_lines resume_text) as [|l0 [|l1 [|l2 rest]]];
    unfold header_line;
    cbn [bind getitem nth_error Nat.ltb Nat.leb length i story current_section
         Nat.add Nat.min header_blocks combine map app];
    rewrite ?combine_nil; reflexivity.
Qed.

Lemma example_text_lines :
  resume_lines example_text =
    [py "Jane Doe"; py "Software Engineer"; py "555-1234 | jane@x.com";
     py "PROFILE"; py "Experienced engineer.";
     py "EMPLOYMENT HISTORY"; py "Engineer | Acme Corp | 2020-2023";
     BULLET :: py " Built things";
     py "SKILLS"; py "Languages: Python, Go"].
Proof. vm_compute. reflexivity. Qed.

(** Whatever the upper-casing of the bullet sign is, a line that goes on
    with " Built things" is no section header. *)
Lemma example_bullet_not_header :
  is_section_header upper_ext (BULLET :: py " Built things") = false.
Proof.
  destruct (is_section_header upper_ext (BULLET :: py " Built things"))
    eqn:E; [|reflexivity].
  apply in_list_In in E.
  change (line_upper upper_ext (BULLET :: py " Built things"))
    with (upper_ext BULLET ++ upper upper_ext (py " Built things")) in E.
  assert (R : forall h, upper_ext BULLET ++ upper upper_ext (py " Built things") = h ->
              firstn 2 (rev h) = [83; 71]).
  { intros h <-. rewrite rev_app_distr. reflexivity. }
  unfold SECTION_HEADERS in E. cbn [In] in E.
  repeat (destruct E as [E|E]; [symmetry in E; apply R in E; discriminate E|]).
  destruct E.
Qed.

Ltac eval_body_flowable :=
  match goal with
  | |- context [body_flowable ?cs ?line] =>
      let v := eval vm_compute in (body_flowable cs line) in
      change (body_flowable cs line) with v
  end.

Ltac scan_header_line :=
  erewrite while_loop_step by reflexivity;
  erewrite loop_body_at by reflexivity;
  match goal with
  | |- context [is_section_header ?u ?line] =>
      replace (is_section_header u line) with true
        by (vm_compute; reflexivity)
  end;
  cbn [bind i current_section story].

Ltac scan_body_line :=
  erewrite while_loop_step by reflexivity;
  erewrite loop_body_at by reflexivity;
  match goal with
  | |- context [is_section_header ?u ?line] =>
      replace (is_section_header u line) with false
        by first [ symmetry; apply example_bullet_not_header
                 | vm_compute; reflexivity ]
  end;
  cbn [i current_section story];
  eval_body_flowable;
  cbn [bind i current_section story].

(** C1. The worked example of the formatter: the text of ten lines gives, in
    this order, the name, title and contact blocks, the section header
    PROFILE, a plain paragraph, the section header EMPLOYMENT HISTORY, the
    record row with "Engineer" on the left and "Acme Corp | 2020-2023" on
    the right, the bullet block of "Built things" (its paragraph carries
    the bullet glyph in front), the section header SKILLS, and the key/value
    row with "Languages:" on the left and "Python, Go" on the right. *)
Theorem example_block_sequence :
  create_pdf_resume upper_ext example_text =
    Returns
      [P (Paragraph (py "Jane Doe") name_style);
       P (Paragraph (py "Software Engineer") title_style);
       P (Paragraph (py "555-1234 | jane@x.com") contact_style);
       P (Paragraph (py "PROFILE") section_title_style);
       P (Paragraph (py "Experienced engineer.") body_style);
       P (Paragraph (py "EMPLOYMENT HISTORY") section_title_style);
       Table [[Paragraph (py "Engineer") body_style;
               Paragraph (py "Acme Corp | 2020-2023") date_style]]
             [300; 180]%Z;
       P (Paragraph (BULLET :: py " Built things") bullet_style);
       P (Paragraph (py "SKILLS") section_title_style);
       Table [[Paragraph (py "Languages:") body_style;
               Paragraph (py "Python, Go") skill_style]]
             [150; 330]%Z].
Proof.
  rewrite create_pdf_resume_scan, example_text_lines.
  cbn [length Nat.min header_blocks combine map].
  scan_header_line. scan_body_line.
  scan_header_line. scan_body_line. scan_body_line.
  scan_header_line. scan_body_line.
  rewrite while_loop_done by (simpl; lia).
  reflexivity.
Qed.

Lemma nth_error_middle {A : Type} (pre : list A) (x : A) (post : list A) :
  nth_error (pre ++ x :: post) (length pre) = Some x.
Proof. rewrite nth_error_app2 by lia. now rewrite Nat.sub_diag. Qed.

(** One iteration on [line], met at any position of the scan. *)
Lemma loop_body_middle (pre : list str) (line : str) (post : list str)
    (cs : str) (story0 : list flowable) :
  loop_body upper_ext (pre ++ line :: post) (mkScan (length pre) cs story0) =
    if is_section_header upper_ext line then
      Returns (mkScan (length pre + 1) (line_upper upper_ext line)
                 (story0 ++ [P (Paragraph (line_upper upper_ext line) section_title_style)]))
    else
      b <- body_flowable cs line ;;
      Returns (mkScan (length pre + 1) cs (story0 ++ [b])).
Proof.
  apply (loop_body_at _ (mkScan (length pre) cs story0)).
  apply nth_error_middle.
Qed.

(** The branches below the section-header test never append a
    section-header block. *)
Lemma body_flowable_not_section (cs line : str) (b : flowable) :
  body_flowable cs line = Returns b -> is_section_block b = false.
Proof.
  unfold body_flowable.
  destruct (in_list cs RECORD_SECTIONS && contains PIPE line).
  - destruct (getitem (map strip (split PIPE line)) 0); simpl; try discriminate.
    intros [= <-]. reflexivity.
  - destruct (is_bullet_line line).
    + intros [= <-]. reflexivity.
    + destruct (str_eqb cs (py "SKILLS") && contains COLON line).
      * destruct (unpack2 (split_max1 COLON line)) as [[cat skills]| |];
          simpl; try discriminate.
        intros [= <-]. reflexivity.
      * intros [= <-]. reflexivity.
Qed.

(** When neither the record branch nor the key/value branch applies to a
    line that is no bullet, the line is a plain paragraph. *)
Lemma body_flowable_plain (cs line : str) :
  in_list cs RECORD_SECTIONS && contains PIPE line = false ->
  is_bullet_line line = false ->
  str_eqb cs (py "SKILLS") && contains COLON line = false ->
  body_flowable cs line = Returns (P (Paragraph line body_style)).
Proof.
  unfold body_flowable. intros -> -> ->. reflexivity.
Qed.


(** C4. A scanned line becomes a section-header block exactly when its
    upper-casing is one of the six section names, compared as whole strings;
    the block then carries the upper-cased line and [current_section] takes
    that value. "Education" is a section header, while "Profile Summary" is
    not: in every section it is appended as a plain paragraph. *)
Theorem section_header_iff_exact (pre : list str) (line : str) (post : list str)
    (cs : str) (story0 : list flowable) :
  (exists st' b,
      loop_body upper_ext (pre ++ line :: post) (mkScan (length pre) cs story0) = Returns st'
      /\ story st' = story0 ++ [b]
      /\ (is_section_block b = true <->
          In (line_upper upper_ext line)
             [py "PROFILE"; py "EMPLOYMENT HISTORY"; py "EDUCATION";
              py "SKILLS"; py "INTERNSHIPS"; py "REFERENCES"])
      /\ (is_section_block b = true ->
          b = P (Paragraph (line_upper upper_ext line) section_title_style)
          /\ current_section st' = line_upper upper_ext line))
  /\ loop_body upper_ext (pre ++ py "Education" :: post) (mkScan (length pre) cs story0) =
       Returns (mkScan (length pre + 1) (py "EDUCATION")
                  (story0 ++ [P (Paragraph (py "EDUCATION") section_title_style)]))
  /\ loop_body upper_ext (pre ++ py "Profile Summary" :: post) (mkScan (length pre) cs story0) =
       Returns (mkScan (length pre + 1) cs
                  (story0 ++ [P (Paragraph (py "Profile Summary") body_style)])).
Proof.
  split; [|split].
  - rewrite loop_body_middle.
    destruct (is_section_header upper_ext line) eqn:E.
    + do 2 eexists. split; [reflexivity|]. split; [reflexivity|].
      split; [|intros _; split; reflexivity].
      split; [intros _; now apply in_list_In | reflexivity].
    + destruct (body_flowable_total cs line) as (b & Hb). rewrite Hb.
      do 2 eexists. split; [reflexivity|]. split; [reflexivity|].
      rewrite (body_flowable_not_section _ _ _ Hb).
      split; [|discriminate].
      split; [discriminate|]. intros H.
      apply in_list_In in H. unfold is_section_header in E.
      change SECTION_HEADERS with
        [py "PROFILE"; py "EMPLOYMENT HISTORY"; py "EDUCATION";
         py "SKILLS"; py "INTERNSHIPS"; py "REFERENCES"] in E.
      congruence.
  - rewrite loop_body_middle. reflexivity.
  - rewrite loop_body_middle.
    replace (is_section_header upper_ext (py "Profile Summary"))
      with false by (vm_compute; reflexivity).
    rewrite body_flowable_plain; [reflexivity| | reflexivity |].
    + apply andb_false_iff. right. reflexivity.
    + apply andb_false_iff. right. reflexivity.
Qed.

(** With "Languages: Python | Go" scanned under SKILLS, a line with a pipe
    that is neither a section header nor a bullet becomes a key/value row;
    with "Engineer | Acme | Since: 2020" scanned under EMPLOYMENT HISTORY, a
    line with a colon outside SKILLS becomes a record row. *)
Lemma pipe_or_colon_line_can_be_row :
  (contains PIPE (py "Languages: Python | Go") = true
   /\ is_section_header upper_ext_id (py "Languages: Python | Go") = false
   /\ is_bullet_line (py "Languages: Python | Go") = false
   /\ loop_body upper_ext_id [py "Languages: Python | Go"]
        (mkScan 0 (py "SKILLS") []) =
      Returns (mkScan 1 (py "SKILLS")
                 [Table [[Paragraph (py "Languages:") body_style;
                          Paragraph (py "Python | Go") skill_style]]
                        [150; 330]%Z]))
  /\ (contains COLON (py "Engineer | Acme | Since: 2020") = true
      /\ py "EMPLOYMENT HISTORY" <> py "SKILLS"
      /\ is_section_header upper_ext_id (py "Engineer | Acme | Since: 2020") = false
      /\ is_bullet_line (py "Engineer | Acme | Since: 2020") = false
      /\ loop_body upper_ext_id [py "Engineer | Acme | Since: 2020"]
           (mkScan 0 (py "EMPLOYMENT HISTORY") []) =
         Returns (mkScan 1 (py "EMPLOYMENT HISTORY")
                    [Table [[Paragraph (py "Engineer") body_style;
                             Paragraph (py "Acme | Since: 2020") date_style]]
                           [300; 180]%Z])).
Proof.
  repeat split; try (vm_compute; reflexivity).
  discriminate.
Qed.

(** C5, as the scan has it. A line that is neither a section header nor a
    bullet is appended as a plain paragraph when it has a pipe and
    [current_section] is PROFILE, REFERENCES or empty; when it has a pipe but
    no colon and [current_section] is SKILLS; and when it has a colon,
    [current_section] is not SKILLS, and the line is not a pipe line of a
    record section. *)
Theorem pipe_or_colon_falls_to_paragraph (pre : list str) (line : str)
    (post : list str) (cs : str) (story0 : list flowable)
    (Hheader : is_section_header upper_ext line = false)
    (Hbullet : is_bullet_line line = false)
    (Hcase :
       (contains PIPE line = true /\ In cs [py "PROFILE"; py "REFERENCES"; []])
       \/ (contains PIPE line = true /\ cs = py "SKILLS"
           /\ contains COLON line = false)
       \/ (contains COLON line = true /\ cs <> py "SKILLS"
           /\ (In cs [py "EMPLOYMENT HISTORY"; py "EDUCATION"; py "INTERNSHIPS"] ->
               contains PIPE line = false))) :
  loop_body upper_ext (pre ++ line :: post) (mkScan (length pre) cs story0) =
    Returns (mkScan (length pre + 1) cs (story0 ++ [P (Paragraph line body_style)])).
Proof.
  rewrite loop_body_middle, Hheader.
  rewrite body_flowable_plain; [reflexivity| |assumption|].
  - destruct Hcase as [(_ & Hcs)|[(_ & -> & _)|(_ & _ & Hrec)]].
    + simpl in Hcs.
      destruct Hcs as [<-|[<-|[<-|[]]]]; reflexivity.
    + reflexivity.
    + destruct (in_list cs RECORD_SECTIONS) eqn:E; [|reflexivity].
      apply in_list_In in E. rewrite (Hrec E). reflexivity.
  - destruct Hcase as [(_ & Hcs)|[(_ & _ & ->)|(_ & Hne & _)]].
    + simpl in Hcs.
      destruct Hcs as [<-|[<-|[<-|[]]]]; reflexivity.
    + apply andb_false_r.
    + destruct (str_eqb cs (py "SKILLS")) eqn:E; [|reflexivity].
      apply str_eqb_eq in E. contradiction.
Qed.


(** A record line with three pipes: the pipes after the first stay in the
    right cell, each with a space on either side. *)
Example record_row_three_pipes :
  body_flowable (py "EDUCATION") (py "BSc|MIT |2015| cum laude") =
    Returns (Table [[Paragraph (py "BSc") body_style;
                     Paragraph (py "MIT | 2015 | cum laude") date_style]]
                   [300; 180]%Z).
Proof. vm_compute. reflexivity. Qed.

(** *** The scan seen from the lines that are left *)

Lemma loop_body_inv (lines : list str) (st st' : scan_state) :
  loop_body upper_ext lines st = Returns st' ->
  exists line b,
    nth_error lines (i st) = Some line
    /\ i st' = (i st + 1)%nat
    /\ story st' = story st ++ [b]
    /\ current_section st' =
         (if is_section_header upper_ext line then line_upper upper_ext line else current_section st).
Proof.
  destruct (nth_error lines (i st)) as [line|] eqn:E.
  - rewrite (loop_body_at _ _ _ E).
    destruct (is_section_header upper_ext line) eqn:Eh.
    + intros [= <-]. do 2 eexists. rewrite Eh. repeat split.
    + destruct (body_flowable (current_section st) line) as [b| |];
        simpl; try discriminate.
      intros [= <-]. exists line, b. rewrite Eh. repeat split.
  - unfold loop_body, getitem. rewrite E. discriminate.
Qed.

Lemma while_loop_more_fuel (fuel fuel' : nat) (lines : list str)
    (st st' : scan_state) :
  while_loop upper_ext fuel lines st = Returns st' -> (fuel <= fuel')%nat ->
  while_loop upper_ext fuel' lines st = Returns st'.
Proof.
  revert fuel' st. induction fuel as [|fuel IH]; intros fuel' st H Hle.
  - simpl in H. destruct (i st <? length lines)%nat eqn:E; [discriminate|].
    injection H as <-. apply while_loop_done. now apply Nat.ltb_ge.
  - destruct fuel' as [|fuel']; [lia|]. simpl in *.
    destruct (i st <? length lines)%nat; [|assumption].
    destruct (loop_body upper_ext lines st) as [st1| |];
      simpl in *; try discriminate.
    apply IH; [assumption | lia].
Qed.

(** Every iteration appends one element, so the scan appends one element
    for each line it is given. *)
Lemma while_loop_story_length (fuel : nat) (lines : list str)
    (st st' : scan_state) :
  while_loop upper_ext fuel lines st = Returns st' ->
  exists blocks,
    story st' = story st ++ blocks
    /\ length blocks = (length lines - i st)%nat.
Proof.
  revert st. induction fuel as [|fuel IH]; intros st H; simpl in H.
  - destruct (Nat.ltb_spec (i st) (length lines)); [discriminate|].
    injection H as <-. exists []. rewrite app_nil_r. split; [reflexivity|].
    simpl. lia.
  - destruct (Nat.ltb_spec (i st) (length lines)) as [Hlt|Hge].
    + destruct (loop_body upper_ext lines st) as [st1| |] eqn:Eb;
        simpl in H; try discriminate.
      destruct (loop_body_inv _ _ _ Eb) as (line & b & _ & Hi & Hs & _).
      destruct (IH _ H) as (blocks & Hst & Hlen).
      exists (b :: blocks). rewrite Hst, Hs, <- app_assoc. split; [reflexivity|].
      simpl. lia.
    + injection H as <-. exists []. rewrite app_nil_r. split; [reflexivity|].
      simpl. lia.
Qed.

(** Lines already scanned play no part: the scan of [pre ++ rest] from the
    position after [pre] is the scan of [rest] from its start. *)
Lemma loop_body_shift (pre rest : list str) (story0 : list flowable)
    (st st' : scan_state) :
  loop_body upper_ext rest st = Returns st' ->
  loop_body upper_ext (pre ++ rest)
    (mkScan (length pre + i st) (current_section st) (story0 ++ story st)) =
  Returns (mkScan (length pre + i st') (current_section st') (story0 ++ story st')).
Proof.
  unfold loop_body, getitem. cbn [i current_section story].
  rewrite nth_error_app2 by lia.
  replace (length pre + i st - length pre)%nat with (i st) by lia.
  destruct (nth_error rest (i st)) as [line|]; [|discriminate]. simpl.
  destruct (is_section_header upper_ext line).
  - intros [= <-]. simpl. now rewrite Nat.add_assoc, app_assoc.
  - destruct (body_flowable (current_section st) line) as [b| |];
      simpl; try discriminate.
    intros [= <-]. simpl. now rewrite Nat.add_assoc, app_assoc.
Qed.

Lemma while_loop_shift (fuel : nat) (pre rest : list str)
    (story0 : list flowable) (st st' : scan_state) :
  while_loop upper_ext fuel rest st = Returns st' ->
  while_loop upper_ext fuel (pre ++ rest)
    (mkScan (length pre + i st) (current_section st) (story0 ++ story st)) =
  Returns (mkScan (length pre + i st') (current_section st') (story0 ++ story st')).
Proof.
  revert st. induction fuel as [|fuel IH]; intros st H; simpl in *;
    rewrite length_app;
    destruct (Nat.ltb_spec (i st) (length rest)) as [Hlt|Hge].
  - discriminate.
  - injection H as <-.
    destruct (Nat.ltb_spec (length pre + i st) (length pre + length rest));
      [lia | reflexivity].
  - destruct (Nat.ltb_spec (length pre + i st) (length pre + length rest));
      [|lia].
    destruct (loop_body upper_ext rest st) as [st1| |] eqn:Eb;
      simpl in H; try discriminate.
    rewrite (loop_body_shift pre rest story0 st st1 Eb). simpl.
    apply (IH st1 H).
  - injection H as <-.
    destruct (Nat.ltb_spec (length pre + i st) (length pre + length rest));
      [lia | reflexivity].
Qed.

(** C9. The scan starts with an empty [current_section]. A run of lines that
    are no section headers leaves [current_section] as it is, and every line
    of the run is turned into its block under that one section; a section
    header sets [current_section] to the upper-cased line. *)
Theorem current_section_only_set_by_headers (pre mid post : list str)
    (cs : str) (story0 : list flowable)
    (Hmid : Forall (fun line => is_section_header upper_ext line = false) mid) :
  (exists blocks,
      Forall2 (fun line b => body_flowable cs line = Returns b) mid blocks
      /\ forall fuel,
           while_loop upper_ext (length mid + fuel) (pre ++ mid ++ post)
             (mkScan (length pre) cs story0) =
           while_loop upper_ext fuel (pre ++ mid ++ post)
             (mkScan (length pre + length mid) cs (story0 ++ blocks)))
  /\ (forall line st',
         loop_body upper_ext (pre ++ line :: post) (mkScan (length pre) cs story0) = Returns st' ->
         current_section st' =
           if is_section_header upper_ext line then line_upper upper_ext line else cs)
  /\ (forall resume_text,
         create_pdf_resume upper_ext resume_text =
           st <- while_loop upper_ext (length (resume_lines resume_text))
                   (resume_lines resume_text)
                   (mkScan (Nat.min 3 (length (resume_lines resume_text))) []
                           (header_blocks (resume_lines resume_text))) ;;
           Returns (story st)).
Proof.
  split; [|split].
  - revert pre story0.
    induction Hmid as [|line mid Hline Hmid IH]; intros pre story0.
    + exists []. split; [constructor|]. intros fuel. simpl.
      now rewrite Nat.add_0_r, app_nil_r.
    + destruct (body_flowable_total cs line) as (b & Hb).
      destruct (IH (pre ++ [line]) (story0 ++ [b])) as (blocks & HF & Hrun).
      exists (b :: blocks). split; [now constructor|]. intros fuel.
      cbn [length Nat.add].
      rewrite (while_loop_step _ _ _ line)
        by (cbn [i]; apply nth_error_middle).
      change ((line :: mid) ++ post) with (line :: mid ++ post).
      rewrite loop_body_middle, Hline, Hb. cbn [bind].
      specialize (Hrun fuel).
      rewrite <- !app_assoc, length_app in Hrun. cbn [length app] in Hrun.
      rewrite Hrun. f_equal. f_equal; lia.
  - intros line st' H. rewrite loop_body_middle in H.
    destruct (is_section_header upper_ext line).
    + now injection H as <-.
    + destruct (body_flowable cs line); simpl in H; try discriminate.
      now injection H as <-.
  - apply create_pdf_resume_scan.
Qed.

End FormatterFacts.

(** ** The cleanup *)

Lemma dropwhile_idempotent (p : char -> bool) (s : str) :
  dropwhile p (dropwhile p s) = dropwhile p s.
Proof.
  induction s as [|c s IH]; simpl; [reflexivity|].
  destruct (p c) eqn:E; [assumption|]. simpl. now rewrite E.
Qed.

Lemma dropwhile_suffix (p : char -> bool) (s : str) :
  exists w, s = w ++ dropwhile p s.
Proof.
  induction s as [|c s (w & IH)]; simpl.
  - now exists [].
  - destruct (p c).
    + exists (c :: w). simpl. now f_equal.
    + now exists [].
Qed.

(** What is left of a string without leading blanks, after its trailing
    blanks are taken off, has no leading blanks either. *)
Lemma rstrip_keeps_lstripped (p : char -> bool) (s : str) :
  dropwhile p s = s -> dropwhile p (rstrip_by p s) = rstrip_by p s.
Proof.
  unfold rstrip_by. intros H.
  destruct (dropwhile_suffix p (rev s)) as (w & Hw).
  apply (f_equal (@rev char)) in Hw.
  rewrite rev_involutive, rev_app_distr in Hw.
  destruct (rev (dropwhile p (rev s))) as [|c u] eqn:Eu; [reflexivity|].
  rewrite Hw in H. simpl in *.
  destruct (p c); [|reflexivity].
  apply (f_equal (@length char)) in H.
  destruct (dropwhile_suffix p (u ++ rev w)) as (w' & Hw').
  apply (f_equal (@length char)) in Hw'. rewrite !length_app in Hw'.
  cbn [length] in H. rewrite length_app in H. lia.
Qed.

Lemma strip_idempotent (s : str) : strip (strip s) = strip s.
Proof.
  unfold strip, lstrip_by.
  rewrite rstrip_keeps_lstripped by apply dropwhile_idempotent.
  unfold rstrip_by. rewrite rev_involutive.
  now rewrite dropwhile_idempotent.
Qed.

(** A pattern that is found nowhere in a string leaves it as it is. *)
Lemma sub_from_no_match (r : Re.regex) (bos : bool) (s : str) :
  Re.search_from r bos s = false -> Re.sub_from r bos 0 s = s.
Proof.
  revert bos. induction s as [|c s IH]; intros bos; [reflexivity|].
  cbn [Re.search_from Re.sub_from]. unfold Re.match_len.
  destruct (Re.rmatch r bos (c :: s)); [discriminate|].
  intros H. now rewrite IH.
Qed.

Lemma sub_no_match (r : Re.regex) (s : str) :
  Re.search r s = false -> Re.sub r s = s.
Proof. apply sub_from_no_match. Qed.

(** *** What a match consumes *)

Lemma word_ci_suffix (w s s' : str) :
  Re.word_ci w s = Some s' -> exists m, s = m ++ s'.
Proof.
  revert s. induction w as [|p w IH]; intros s; simpl.
  - intros [= <-]. now exists [].
  - destruct s as [|c s]; [discriminate|].
    destruct (Re.ci_eqb p c); [|discriminate].
    intros H. destruct (IH _ H) as (m & ->). now exists (c :: m).
Qed.

(** After its first atom, a match goes on with the rest of the pattern on a
    suffix of the text, and a literal takes one character of it. *)
Lemma rmatch_step (a : Re.atom) (r : Re.regex) (bos : bool) (s rest : str) :
  Re.rmatch (a :: r) bos s = Some rest ->
  exists bos' s' m,
    s = m ++ s'
    /\ Re.rmatch r bos' s' = Some rest
    /\ match a with Re.Lit _ => m <> [] | _ => True end.
Proof.
  destruct a as [| |p|alts|p|cls|cls]; cbn [Re.rmatch]; cbv zeta.
  - destruct bos; [|discriminate]. intros H. now exists true, s, [].
  - destruct (Re.at_eol s); [|discriminate]. intros H. now exists bos, s, [].
  - destruct s as [|c s]; [discriminate|].
    destruct (Re.ci_eqb p c); [|discriminate].
    intros H. exists false, s, [c]. repeat split; [assumption | discriminate].
  - induction alts as [|w alts IH]; [discriminate|].
    destruct (Re.word_ci w s) as [s'|] eqn:Ew; [|exact IH].
    destruct (Re.rmatch r (bos && is_nil w) s') as [x|] eqn:Ek; [|exact IH].
    intros [= <-]. destruct (word_ci_suffix _ _ _ Ew) as (m & ->).
    now exists (bos && is_nil w), s', m.
  - destruct s as [|c s]; [intros H; now exists bos, [], []|].
    destruct (Re.ci_eqb p c); [|intros H; now exists bos, (c :: s), []].
    destruct (Re.rmatch r false s) as [x|] eqn:Ek.
    + intros [= <-]. now exists false, s, [c].
    + intros H. now exists bos, (c :: s), [].
  - revert bos. induction s as [|c s IH]; intros bos.
    + intros H. now exists bos, [], [].
    + destruct (Re.in_class cls c); [|intros H; now exists bos, (c :: s), []].
      match goal with
      | |- match ?x with _ => _ end = _ -> _ => destruct x as [y|] eqn:Em
      end.
      * intros [= <-]. destruct (IH _ Em) as (bos' & s' & m & -> & Hr & _).
        now exists bos', s', (c :: m).
      * intros H. now exists bos, (c :: s), [].
  - revert bos. induction s as [|c s IH]; intros bos.
    + destruct (Re.rmatch r bos []) as [x|] eqn:Ek; [|discriminate].
      intros [= <-]. now exists bos, [], [].
    + destruct (Re.rmatch r bos (c :: s)) as [x|] eqn:Ek.
      * intros [= <-]. now exists bos, (c :: s), [].
      * destruct (Re.in_class cls c); [|discriminate].
        intros H. destruct (IH _ H) as (bos' & s' & m & -> & Hr & _).
        now exists bos', s', (c :: m).
Qed.

Lemma rmatch_suffix (r : Re.regex) (bos : bool) (s rest : str) :
  Re.rmatch r bos s = Some rest -> exists m, s = m ++ rest.
Proof.
  revert bos s. induction r as [|a r IH]; intros bos s H.
  - injection H as <-. now exists [].
  - destruct (rmatch_step _ _ _ _ _ H) as (bos' & s' & m & -> & Hr & _).
    destruct (IH _ _ Hr) as (m' & ->). exists (m ++ m'). now rewrite app_assoc.
Qed.

(** A pattern with a literal in it matches at least one character. *)
Lemma rmatch_literal_consumes (r1 : Re.regex) (p : char) (r2 : Re.regex)
    (bos : bool) (s rest : str) :
  Re.rmatch (r1 ++ Re.Lit p :: r2) bos s = Some rest ->
  (length rest < length s)%nat.
Proof.
  revert bos s. induction r1 as [|a r1 IH]; intros bos s H.
  - destruct (rmatch_step _ _ _ _ _ H) as (bos' & s' & m & -> & Hr & Hm).
    destruct (rmatch_suffix _ _ _ _ Hr) as (m' & ->).
    rewrite !length_app. destruct m; [now elim Hm|]. simpl. lia.
  - simpl in H.
    destruct (rmatch_step _ _ _ _ _ H) as (bos' & s' & m & -> & Hr & _).
    apply IH in Hr. rewrite length_app. lia.
Qed.

(** None of the four cleanup patterns matches the empty string, so every
    match that [re.sub] finds removes something. *)
Lemma cleanup_patterns_consume (r : Re.regex) (bos : bool) (s rest : str) :
  In r CLEANUP_PATTERNS ->
  Re.rmatch r bos s = Some rest -> (length rest < length s)%nat.
Proof.
  intros [<-|[<-|[<-|[<-|[]]]]].
  - apply (rmatch_literal_consumes
             [Re.Bol; Re.Alt [py "Here is"; py "Here's"]; Re.StarLazy Re.Dot] 114).
  - apply (rmatch_literal_consumes [Re.Bol; Re.Star Re.Dot] 102).
  - apply (rmatch_literal_consumes [] 73).
  - apply (rmatch_literal_consumes [Re.Bol; Re.StarLazy Re.Dot] 98).
Qed.

(** The second pass over [repeated_preamble] removes the preamble that the
    first pass left. *)
Lemma cleanup_twice_differs :
  cleanup repeated_preamble = py "Here is the resume: Jane Doe"
  /\ cleanup (cleanup repeated_preamble) = py "Jane Doe"
  /\ cleanup (cleanup repeated_preamble) <> cleanup repeated_preamble.
Proof.
  assert (H1 : cleanup repeated_preamble = py "Here is the resume: Jane Doe")
    by (vm_compute; reflexivity).
  assert (H2 : cleanup (cleanup repeated_preamble) = py "Jane Doe")
    by (vm_compute; reflexivity).
  repeat split; try assumption.
  rewrite H2, H1. discriminate.
Qed.

(** *** Lengths *)

Lemma dropwhile_length (p : char -> bool) (s : str) :
  (length (dropwhile p s) <= length s)%nat.
Proof.
  induction s as [|c s IH]; simpl; [lia|].
  destruct (p c); simpl; lia.
Qed.

Lemma strip_length (s : str) : (length (strip s) <= length s)%nat.
Proof.
  unfold strip, rstrip_by, lstrip_by. rewrite length_rev.
  etransitivity; [apply dropwhile_length|]. rewrite length_rev.
  apply dropwhile_length.
Qed.

Lemma sub_from_length (r : Re.regex) (bos : bool) (skip : nat) (s : str) :
  (length (Re.sub_from r bos skip s) <= length s)%nat.
Proof.
  revert bos skip. induction s as [|c s IH]; intros bos skip; [reflexivity|].
  cbn [Re.sub_from].
  destruct skip as [|n].
  - destruct (Re.match_len r bos (c :: s)) as [[|n]|]; cbn [length].
    + specialize (IH false 0%nat). lia.
    + specialize (IH false n). lia.
    + specialize (IH false 0%nat). lia.
  - specialize (IH false n). cbn [length]. lia.
Qed.

(** A pattern whose matches are never empty, once found, makes the text
    shorter. *)
Lemma sub_from_shorter (r : Re.regex) :
  (forall bos s rest, Re.rmatch r bos s = Some rest -> (length rest < length s)%nat) ->
  forall bos s,
    Re.search_from r bos s = true ->
    (length (Re.sub_from r bos 0 s) < length s)%nat.
Proof.
  intros Hr bos s. revert bos. induction s as [|c s IH]; intros bos.
  - cbn [Re.search_from].
    destruct (Re.rmatch r bos []) as [rest|] eqn:E; [|discriminate].
    apply Hr in E. simpl in E. lia.
  - cbn [Re.search_from Re.sub_from]. unfold Re.match_len.
    destruct (Re.rmatch r bos (c :: s)) as [rest|] eqn:E.
    + intros _. apply Hr in E.
      destruct (length (c :: s) - length rest)%nat as [|n] eqn:En; [lia|].
      pose proof (sub_from_length r false n s). cbn [length]. lia.
    + intros H. apply IH in H. cbn [length]. lia.
Qed.

Lemma cleanup_sub_shorter (r : Re.regex) (s : str) :
  In r CLEANUP_PATTERNS -> Re.search r s = true ->
  (length (Re.sub r s) < length s)%nat.
Proof.
  intros Hin. apply sub_from_shorter.
  intros bos s' rest. now apply cleanup_patterns_consume.
Qed.

(** The four substitutions never make the text longer, and make it shorter
    as soon as one of the patterns is found in it. *)
Lemma remove_intro_outro_length (s : str) :
  (length (remove_intro_outro s) <= length s)%nat.
Proof.
  unfold remove_intro_outro. cbv zeta. unfold Re.sub.
  repeat (etransitivity; [apply sub_from_length|]). reflexivity.
Qed.

Lemma remove_intro_outro_shorter (r : Re.regex) (s : str) :
  In r CLEANUP_PATTERNS -> Re.search r s = true ->
  (length (remove_intro_outro s) < length s)%nat.
Proof.
  intros Hin Hr. unfold remove_intro_outro. cbv zeta.
  assert (L : forall p x, (length (Re.sub p x) <= length x)%nat)
    by (intros; apply sub_from_length).
  assert (S : forall p x, In p CLEANUP_PATTERNS -> Re.search p x = true ->
                          (length (Re.sub p x) < length x)%nat)
    by (intros; now apply cleanup_sub_shorter).
  assert (I1 : In RE_HERE_IS CLEANUP_PATTERNS) by (simpl; tauto).
  assert (I2 : In RE_FORMATTED CLEANUP_PATTERNS) by (simpl; tauto).
  assert (I3 : In RE_I_HOPE CLEANUP_PATTERNS) by (simpl; tauto).
  assert (I4 : In RE_BASED_ON CLEANUP_PATTERNS) by (simpl; tauto).
  destruct (Re.search RE_HERE_IS s) eqn:E1.
  { pose proof (S _ _ I1 E1).
    pose proof (L RE_FORMATTED (Re.sub RE_HERE_IS s)).
    pose proof (L RE_I_HOPE (Re.sub RE_FORMATTED (Re.sub RE_HERE_IS s))).
    pose proof (L RE_BASED_ON
                  (Re.sub RE_I_HOPE (Re.sub RE_FORMATTED (Re.sub RE_HERE_IS s)))).
    lia. }
  rewrite (sub_no_match _ _ E1).
  destruct (Re.search RE_FORMATTED s) eqn:E2.
  { pose proof (S _ _ I2 E2).
    pose proof (L RE_I_HOPE (Re.sub RE_FORMATTED s)).
    pose proof (L RE_BASED_ON (Re.sub RE_I_HOPE (Re.sub RE_FORMATTED s))).
    lia. }
  rewrite (sub_no_match _ _ E2).
  destruct (Re.search RE_I_HOPE s) eqn:E3.
  { pose proof (S _ _ I3 E3).
    pose proof (L RE_BASED_ON (Re.sub RE_I_HOPE s)).
    lia. }
  rewrite (sub_no_match _ _ E3).
  destruct (Re.search RE_BASED_ON s) eqn:E4.
  { exact (S _ _ I4 E4). }
  destruct Hin as [<-|[<-|[<-|[<-|[]]]]]; congruence.
Qed.

(** Text in which none of the patterns is found is left as it is by the four
    substitutions. *)
Lemma remove_intro_outro_clean (s : str) :
  (forall r, In r CLEANUP_PATTERNS -> Re.search r s = false) ->
  remove_intro_outro s = s.
Proof.
  intros Hclean. unfold remove_intro_outro, CLEANUP_PATTERNS in *. cbv zeta.
  rewrite (sub_no_match RE_HERE_IS) by (apply Hclean; simpl; tauto).
  rewrite (sub_no_match RE_FORMATTED) by (apply Hclean; simpl; tauto).
  rewrite (sub_no_match RE_I_HOPE) by (apply Hclean; simpl; tauto).
  apply sub_no_match, Hclean; simpl; tauto.
Qed.

Lemma cleanup_is_trimmed (content : str) : strip (cleanup content) = cleanup content.
Proof. unfold cleanup. apply strip_idempotent. Qed.

(** C3, as the cleanup has it. Applying the pipeline twice gives what
    applying it once gives exactly when the first application leaves clean
    text, that is, text in which none of the four patterns is found. This
    is so for text that is already clean (none of the patterns is found in
    its trimmed form): the pipeline only trims it. *)
Theorem cleanup_idempotent_iff_clean (content : str) :
  (cleanup (cleanup content) = cleanup content <->
   forall r, In r CLEANUP_PATTERNS -> Re.search r (cleanup content) = false)
  /\ ((forall r, In r CLEANUP_PATTERNS -> Re.search r (strip content) = false) ->
      cleanup content = strip content
      /\ cleanup (cleanup content) = cleanup content).
Proof.
  assert (Hback : forall x,
             strip x = x ->
             (forall r, In r CLEANUP_PATTERNS -> Re.search r x = false) ->
             cleanup x = x).
  { intros x Hx Hclean. unfold cleanup.
    now rewrite Hx, (remove_intro_outro_clean _ Hclean). }
  split.
  - split.
    + intros Hid r Hin.
      destruct (Re.search r (cleanup content)) eqn:E; [|reflexivity].
      exfalso.
      pose proof (remove_intro_outro_shorter r (cleanup content) Hin E) as Hlt.
      apply (f_equal (@length char)) in Hid.
      unfold cleanup at 1 in Hid. rewrite cleanup_is_trimmed in Hid.
      pose proof (strip_length (remove_intro_outro (cleanup content))).
      lia.
    + intros Hclean. apply Hback; [apply cleanup_is_trimmed | assumption].
  - intros Hclean.
    assert (H1 : cleanup content = strip content).
    { unfold cleanup. rewrite (remove_intro_outro_clean _ Hclean).
      apply strip_idempotent. }
    split; [assumption|].
    rewrite H1. apply Hback; [apply strip_idempotent | assumption].
Qed.

Lemma cleanup_idempotent_iff_clean_witness :
  (forall r, In r CLEANUP_PATTERNS ->
     Re.search r (strip (py "  Jane Doe: Resume based only on facts ")) = false)
  /\ cleanup (py "  Jane Doe: Resume based only on facts ")
     = strip (py "  Jane Doe: Resume based only on facts ")
  /\ cleanup (cleanup (py "  Jane Doe: Resume based only on facts "))
     = cleanup (py "  Jane Doe: Resume based only on facts ").
Proof.
  assert (H : forall r, In r CLEANUP_PATTERNS ->
     Re.search r (strip (py "  Jane Doe: Resume based only on facts ")) = false).
  { intros r [<-|[<-|[<-|[<-|[]]]]]; vm_compute; reflexivity. }
  split; [exact H|].
  apply (proj2 (cleanup_idempotent_iff_clean _) H).
Defined.

(** A preamble that is there once is removed by the first pass, and the
    second pass changes nothing. *)
Example cleanup_single_preamble :
  cleanup (py "Here is your resume: Jane Doe") = py "Jane Doe"
  /\ cleanup (cleanup (py "Here is your resume: Jane Doe")) = py "Jane Doe".
Proof. split; vm_compute; reflexivity. Qed.

(** ** The completion client *)

Lemma create_resume_prompt_object (members : list (str * json)) :
  exists payload, create_resume_prompt (JObj members) = Returns payload.
Proof. unfold create_resume_prompt. simpl. eexists; reflexivity. Qed.

(** The extraction gives the cleaned text of the first choice when there is
    one, and otherwise ends without a value or raises. *)
Lemma extract_content_spec (result : json) :
  match extract_content result with
  | Returns v => v = option_map cleanup (first_choice_content result)
  | Raises _ => first_choice_content result = None
  | OutOfFuel => False
  end.
Proof.
  unfold extract_content, has_choices, first_choice_content.
  destruct result as [| | | |s|items|members]; simpl; try reflexivity.
  - destruct (is_substring (py "choices") s); reflexivity.
  - destruct (existsb (is_str (py "choices")) items); reflexivity.
  - destruct (lookup (py "choices") members) as [choices|]; simpl;
      [|reflexivity].
    destruct choices as [| | | |s|items|ms]; simpl; try reflexivity.
    + destruct s; reflexivity.
    + destruct items as [|choice items]; simpl; [reflexivity|].
      destruct choice as [| | | | | |choice]; simpl; try reflexivity.
      destruct (lookup (py "message") choice) as [message|]; simpl;
        [|reflexivity].
      destruct message as [| | | | | |message]; simpl; try reflexivity.
      destruct (lookup (py "content") message) as [content|]; simpl;
        [|reflexivity].
      destruct content; reflexivity.
    + destruct ms; reflexivity.
Qed.

(** A response with status 500 whose body has a choice gives the cleaned
    text, not the failure value; a response with status 200, well-formed
    JSON and a non-empty [choices] whose choice has no message gives the
    failure value, not a text. *)
Lemma status_is_not_inspected :
  ((500 < 200)%Z \/ (299 < 500)%Z)
  /\ fst (generate_resume_text (PostResponse 500 (Some body_with_choice))
            example_request [])
     = Returns (Some (py "Jane Doe"))
  /\ fst (generate_resume_text (PostResponse 200 (Some body_without_message))
            example_request [])
     = Returns None.
Proof.
  split; [right; reflexivity|].
  split; vm_compute; reflexivity.
Qed.

(** C2, as the client has it. The completion call makes one outbound call
    and never raises. It returns the failure value [None] when the transport
    raises, when the body is not JSON, and when the parsed body has no text
    of a first choice: no [choices], an empty one, or a first choice without
    a string at [message.content]. In every other case it returns the cleaned
    text of the first choice. The status code of the response plays no
    part. *)
Theorem completion_outcome (net : post_result) (t : calls) :
  (forall members, exists payload,
      create_resume_prompt (JObj members) = Returns payload
      /\ generate_resume_text net (JObj members) t =
           (Returns
              match net with
              | PostRaises => None
              | PostResponse _ None => None
              | PostResponse _ (Some result) =>
                  option_map cleanup (first_choice_content result)
              end,
            t ++ [payload]))
  /\ (forall data, exists v t', generate_resume_text net data t = (Returns v, t')).
Proof.
  assert (Hobj : forall members, exists payload,
      create_resume_prompt (JObj members) = Returns payload
      /\ generate_resume_text net (JObj members) t =
           (Returns
              match net with
              | PostRaises => None
              | PostResponse _ None => None
              | PostResponse _ (Some result) =>
                  option_map cleanup (first_choice_content result)
              end,
            t ++ [payload])).
  { intros members.
    destruct (create_resume_prompt_object members) as (payload & Hp).
    exists payload. split; [assumption|].
    unfold generate_resume_text, generate_resume_text_try, try_except, io_bind,
      lift, requests_post, io_ret.
    rewrite Hp.
    destruct net as [|status_code [result|]]; simpl; try reflexivity.
    pose proof (extract_content_spec result) as H.
    destruct (extract_content result) as [v| |]; simpl;
      [now rewrite H | now rewrite H | contradiction]. }
  split; [exact Hobj|].
  intros data.
  destruct data as [| | | | | |members];
    try (do 2 eexists; reflexivity).
  destruct (Hobj members) as (payload & _ & ->). do 2 eexists; reflexivity.
Qed.

(** ** The endpoints *)






(** With a body that passes the check, the endpoint calls the completion
    endpoint once and answers with the cleaned text. *)
Example generate_resume_success :
  generate_resume (PostResponse 200 (Some body_with_choice))
    (GetJsonReturns example_request) [] =
  (Returns (mkResponse 200 (ResumeJson (py "Jane Doe"))),
   [[JStr (py "Jane Doe"); JStr []; JStr (py "jane@x.com");
     JStr []; JStr []; JStr []; JStr []]]).
Proof. vm_compute. reflexivity. Qed.

(** ** The hypotheses of the formatter's statements, at concrete lines *)

Lemma pipe_or_colon_falls_to_paragraph_witness :
  is_section_header upper_ext_id (py "Python | Go") = false
  /\ is_bullet_line (py "Python | Go") = false
  /\ (contains PIPE (py "Python | Go") = true /\ py "SKILLS" = py "SKILLS"
      /\ contains COLON (py "Python | Go") = false)
  /\ loop_body upper_ext_id ([py "SKILLS"] ++ py "Python | Go" :: [])
       (mkScan (length [py "SKILLS"]) (py "SKILLS") []) =
     Returns (mkScan (length [py "SKILLS"] + 1) (py "SKILLS")
                ([] ++ [P (Paragraph (py "Python | Go") body_style)])).
Proof.
  assert (Hh : is_section_header upper_ext_id (py "Python | Go") = false)
    by (vm_compute; reflexivity).
  assert (Hb : is_bullet_line (py "Python | Go") = false)
    by (vm_compute; reflexivity).
  assert (Hc : contains PIPE (py "Python | Go") = true /\ py "SKILLS" = py "SKILLS"
               /\ contains COLON (py "Python | Go") = false)
    by (repeat split; vm_compute; reflexivity).
  split; [exact Hh|]. split; [exact Hb|]. split; [exact Hc|].
  apply (pipe_or_colon_falls_to_paragraph upper_ext_id [py "SKILLS"]
           (py "Python | Go") [] (py "SKILLS") [] Hh Hb).
  right. left. exact Hc.
Defined.


Lemma current_section_only_set_by_headers_witness :
  Forall (fun line => is_section_header upper_ext_id line = false)
    [py "Engineer | Acme Corp | 2020-2023"; py "- Built things"]
  /\ exists blocks,
       Forall2 (fun line b => body_flowable (py "EMPLOYMENT HISTORY") line = Returns b)
         [py "Engineer | Acme Corp | 2020-2023"; py "- Built things"] blocks
       /\ forall fuel,
            while_loop upper_ext_id
              (length [py "Engineer | Acme Corp | 2020-2023"; py "- Built things"] + fuel)
              ([py "EMPLOYMENT HISTORY"]
               ++ [py "Engineer | Acme Corp | 2020-2023"; py "- Built things"]
               ++ [py "SKILLS"])
              (mkScan (length [py "EMPLOYMENT HISTORY"]) (py "EMPLOYMENT HISTORY") []) =
            while_loop upper_ext_id fuel
              ([py "EMPLOYMENT HISTORY"]
               ++ [py "Engineer | Acme Corp | 2020-2023"; py "- Built things"]
               ++ [py "SKILLS"])
              (mkScan (length [py "EMPLOYMENT HISTORY"]
                       + length [py "Engineer | Acme Corp | 2020-2023"; py "- Built things"])
                      (py "EMPLOYMENT HISTORY") ([] ++ blocks)).
Proof.
  assert (H : Forall (fun line => is_section_header upper_ext_id line = false)
                [py "Engineer | Acme Corp | 2020-2023"; py "- Built things"])
    by (repeat constructor).
  split; [exact H|].
  exact (proj1 (current_section_only_set_by_headers upper_ext_id
                  [py "EMPLOYMENT HISTORY"]
                  [py "Engineer | Acme Corp | 2020-2023"; py "- Built things"]
                  [py "SKILLS"] (py "EMPLOYMENT HISTORY") [] H)).
Defined.


(** * Further properties of the code *)

(** ** The lines of a text *)

Lemma dropwhile_In (p : char -> bool) (c : char) (s : str) :
  In c (dropwhile p s) -> In c s.
Proof.
  induction s as [|x s IH]; simpl; [tauto|].
  destruct (p x); simpl; tauto.
Qed.

Lemma strip_In (c : char) (s : str) : In c (strip s) -> In c s.
Proof.
  unfold strip, rstrip_by, lstrip_by. intros H.
  apply in_rev, dropwhile_In, in_rev in H. now apply dropwhile_In in H.
Qed.

Lemma dropwhile_all (p : char -> bool) (s : str) :
  forallb p s = true -> dropwhile p s = [].
Proof.
  induction s as [|c s IH]; simpl; [reflexivity|].
  destruct (p c); [assumption | discriminate].
Qed.

Lemma strip_blank (s : str) : forallb isspace s = true -> strip s = [].
Proof.
  intros H. unfold strip, lstrip_by. now rewrite (dropwhile_all _ _ H).
Qed.

Lemma join_In (sep : str) (parts : list str) (p : str) (c : char) :
  In p parts -> In c p -> In c (join sep parts).
Proof.
  induction parts as [|q parts IH]; [contradiction|].
  intros [->|Hin] Hc.
  - destruct parts as [|q' parts]; [assumption|].
    change (In c (p ++ sep ++ join sep (q' :: parts))).
    apply in_or_app. now left.
  - destruct parts as [|q' parts]; [contradiction|].
    change (In c (q ++ sep ++ join sep (q' :: parts))).
    apply in_or_app. right. apply in_or_app. right. now apply IH.
Qed.

(** Every character of a part of a split is a character of the string. *)
Lemma split_In (sep : char) (s p : str) (c : char) :
  In p (split sep s) -> In c p -> In c s.
Proof.
  destruct (split_spec sep s) as (q & qs & E & Hj & _).
  rewrite E. intros Hp Hc. rewrite <- Hj. now apply (join_In _ _ p).
Qed.

Lemma split_no_sep (sep : char) (s p : str) :
  In p (split sep s) -> contains sep p = false.
Proof.
  destruct (split_spec sep s) as (q & qs & E & _ & Hf & _).
  rewrite E. intros Hp. rewrite Forall_forall in Hf. now apply Hf.
Qed.

(** A string cut where it has a separator splits into the parts of the one
    side followed by the parts of the other. *)
Lemma split_app_sep (sep : char) (a b : str) :
  split sep (a ++ sep :: b) = split sep a ++ split sep b.
Proof.
  unfold split. induction a as [|c a IH]; simpl.
  - rewrite N.eqb_refl. now destruct (split_parts sep b).
  - destruct (split_parts sep (a ++ sep :: b)) as [p ps].
    destruct (split_parts sep a) as [pa psa].
    destruct (split_parts sep b) as [pb psb].
    simpl in IH. injection IH as -> ->.
    now destruct (c =? sep).
Qed.

(** X1. The lines the formatter works on are never empty, have no blank at
    either end (trimming them again changes nothing), and have no line feed
    in them. *)
Theorem resume_lines_are_trimmed (resume_text : str) :
  Forall (fun line => line <> [] /\ strip line = line /\ contains LF line = false)
         (resume_lines resume_text).
Proof.
  apply Forall_forall. intros line Hin. unfold resume_lines in Hin.
  apply in_map_iff in Hin as (raw & <- & Hraw).
  apply filter_In in Hraw as (Hsplit & Hne).
  repeat split.
  - intros E. rewrite E in Hne. discriminate.
  - apply strip_idempotent.
  - destruct (contains LF (strip raw)) eqn:E; [|reflexivity].
    apply contains_In, strip_In, contains_In in E.
    now rewrite (split_no_sep _ _ _ Hsplit) in E.
Qed.

Lemma resume_lines_app (a b : str) :
  resume_lines (a ++ LF :: b) = resume_lines a ++ resume_lines b.
Proof.
  unfold resume_lines. now rewrite split_app_sep, filter_app, map_app.
Qed.

Lemma filter_none {A : Type} (f : A -> bool) (l : list A) :
  (forall x, In x l -> f x = false) -> filter f l = [].
Proof.
  induction l as [|x l IH]; intros H; simpl; [reflexivity|].
  rewrite (H x) by now left. apply IH. intros y Hy. apply H. now right.
Qed.

Lemma resume_lines_blank (s : str) :
  forallb isspace s = true -> resume_lines s = [].
Proof.
  intros H. unfold resume_lines.
  assert (Hf : filter (fun line => negb (is_nil (strip line))) (split LF s) = []).
  { apply filter_none. intros raw Hin.
    rewrite strip_blank; [reflexivity|].
    apply forallb_forall. intros c Hc.
    rewrite forallb_forall in H. apply H. now apply (split_In LF s raw). }
  now rewrite Hf.
Qed.

Section MoreFormatterFacts.

Variable upper_ext : char -> str.

Lemma create_pdf_resume_same_lines (a b : str) :
  resume_lines a = resume_lines b ->
  create_pdf_resume upper_ext a = create_pdf_resume upper_ext b.
Proof. unfold create_pdf_resume. now intros ->. Qed.

(** X2. Line breaks compose: the lines of a text with a line feed in it are
    the lines of what is before the line feed followed by the lines of what
    is after it. So a blank line, or a line of blanks only, put between two
    parts of a text changes neither the lines nor the document. *)
Theorem lines_compose_over_line_feeds (a blank b : str)
    (Hblank : forallb isspace blank = true) :
  resume_lines (a ++ LF :: b) = resume_lines a ++ resume_lines b
  /\ resume_lines (a ++ LF :: blank ++ LF :: b) = resume_lines (a ++ LF :: b)
  /\ create_pdf_resume upper_ext (a ++ LF :: blank ++ LF :: b) =
     create_pdf_resume upper_ext (a ++ LF :: b).
Proof.
  assert (H : resume_lines (a ++ LF :: blank ++ LF :: b) = resume_lines (a ++ LF :: b)).
  { rewrite !resume_lines_app, (resume_lines_blank _ Hblank). reflexivity. }
  split; [apply resume_lines_app|]. split; [exact H|].
  now apply create_pdf_resume_same_lines.
Qed.

(** X3. A text of blanks only (spaces, tabs, line feeds, or nothing at all)
    gives the empty document: no header block is made up for it. *)
Theorem blank_text_gives_empty_document (resume_text : str)
    (Hblank : forallb isspace resume_text = true) :
  create_pdf_resume upper_ext resume_text = Returns [].
Proof.
  rewrite create_pdf_resume_scan, (resume_lines_blank _ Hblank). reflexivity.
Qed.

End MoreFormatterFacts.

(** ** The document, block by block *)

Section ScanInvariants.

Variable upper_ext : char -> str.

Lemma skipn_nth_error {A : Type} (l : list A) (n : nat) (x : A) :
  nth_error l n = Some x -> skipn n l = x :: skipn (S n) l.
Proof.
  revert l. induction n as [|n IH]; intros [|y l]; simpl; try discriminate.
  - now intros [= ->].
  - intros H. now rewrite (IH _ H).
Qed.

Lemma body_flowable_shape (cs line : str) (b : flowable) :
  body_flowable cs line = Returns b -> block_shape b.
Proof.
  unfold body_flowable.
  destruct (in_list cs RECORD_SECTIONS && contains PIPE line).
  - destruct (getitem (map strip (split PIPE line)) 0); simpl; try discriminate.
    intros [= <-]. exact I.
  - destruct (is_bullet_line line).
    + intros [= <-]. simpl. eexists; reflexivity.
    + destruct (str_eqb cs (py "SKILLS") && contains COLON line).
      * destruct (unpack2 (split_max1 COLON line)) as [[cat skills]| |];
          simpl; try discriminate.
        intros [= <-]. simpl. eexists; reflexivity.
      * intros [= <-]. exact I.
Qed.

Lemma block_of_line_shape (line : str) (b : flowable) :
  block_of_line upper_ext line b -> block_shape b.
Proof.
  intros [(sty & Hsty & ->)|[(_ & Hin & ->)|(_ & cs & _ & Hb)]].
  - simpl in Hsty. destruct Hsty as [<-|[<-|[<-|[]]]]; exact I.
  - exact Hin.
  - exact (body_flowable_shape _ _ _ Hb).
Qed.

(** One iteration turns the line at [i] into one block, and keeps
    [current_section] among its seven values. *)
Lemma loop_body_block (lines : list str) (st st' : scan_state) :
  loop_body upper_ext lines st = Returns st' ->
  In (current_section st) SECTION_STATES ->
  exists line b,
    nth_error lines (i st) = Some line
    /\ i st' = (i st + 1)%nat
    /\ story st' = story st ++ [b]
    /\ block_of_line upper_ext line b
    /\ In (current_section st') SECTION_STATES.
Proof.
  intros H Hcs.
  destruct (nth_error lines (i st)) as [line|] eqn:E.
  - rewrite (loop_body_at _ _ _ _ E) in H.
    destruct (is_section_header upper_ext line) eqn:Eh.
    + injection H as <-. exists line. eexists.
      assert (Hin : In (line_upper upper_ext line) SECTION_HEADERS)
        by now apply in_list_In.
      repeat split; try reflexivity.
      * right. left. repeat split; assumption.
      * right. exact Hin.
    + destruct (body_flowable (current_section st) line) as [b| |] eqn:Eb;
        simpl in H; try discriminate.
      injection H as <-. exists line, b.
      repeat split; try reflexivity; try assumption.
      right. right. split; [assumption|]. now exists (current_section st).
  - unfold loop_body, getitem in H. rewrite E in H. discriminate.
Qed.

Lemma while_loop_blocks (fuel : nat) (lines : list str) (st st' : scan_state) :
  while_loop upper_ext fuel lines st = Returns st' ->
  In (current_section st) SECTION_STATES ->
  exists blocks,
    story st' = story st ++ blocks
    /\ Forall2 (block_of_line upper_ext) (skipn (i st) lines) blocks
    /\ In (current_section st') SECTION_STATES.
Proof.
  revert st. induction fuel as [|fuel IH]; intros st H Hcs; simpl in H;
    destruct (Nat.ltb_spec (i st) (length lines)) as [Hlt|Hge];
    try discriminate.
  - injection H as <-. exists []. rewrite app_nil_r, skipn_all2 by assumption.
    repeat split; [constructor | assumption].
  - destruct (loop_body upper_ext lines st) as [st1| |] eqn:Eb;
      simpl in H; try discriminate.
    destruct (loop_body_block _ _ _ Eb Hcs) as (line & b & Hn & Hi & Hs & Hb & Hcs1).
    destruct (IH _ H Hcs1) as (blocks & Hst & HF & Hcs').
    exists (b :: blocks). rewrite Hst, Hs, <- app_assoc.
    repeat split; [|assumption].
    rewrite (skipn_nth_error _ _ _ Hn). constructor; [assumption|].
    now rewrite Hi, Nat.add_1_r in HF.
  - injection H as <-. exists []. rewrite app_nil_r, skipn_all2 by assumption.
    repeat split; [constructor | assumption].
Qed.

Lemma header_blocks_of_lines (lines : list str) :
  Forall2 (block_of_line upper_ext)
    (firstn (Nat.min 3 (length lines)) lines) (header_blocks lines).
Proof.
  assert (Hd : forall line sty,
             In sty [name_style; title_style; contact_style] ->
             block_of_line upper_ext line (P (Paragraph line sty))).
  { intros line sty Hsty. left. now exists sty. }
  unfold header_blocks.
  destruct lines as [|l0 [|l1 [|l2 rest]]]; cbn [length Nat.min firstn combine map];
    rewrite ?combine_nil;
    repeat (apply Forall2_cons; [apply Hd; simpl; tauto|]); constructor.
Qed.

(** The scan of a whole text: its blocks, in step with its lines. *)
Lemma create_pdf_resume_blocks (resume_text : str) :
  exists blocks,
    create_pdf_resume upper_ext resume_text = Returns blocks
    /\ Forall2 (block_of_line upper_ext) (resume_lines resume_text) blocks.
Proof.
  rewrite create_pdf_resume_scan.
  set (lines := resume_lines resume_text).
  destruct (while_loop_total upper_ext (length lines) lines
              (mkScan (Nat.min 3 (length lines)) [] (header_blocks lines)))
    as (st & Hst); [simpl; lia|].
  rewrite Hst.
  destruct (while_loop_blocks _ _ _ _ Hst) as (blocks & Hs & HF & _);
    [now left|].
  cbn [i story] in Hs, HF. eexists. split; [reflexivity|].
  rewrite Hs.
  assert (G : Forall2 (block_of_line upper_ext)
                (firstn (Nat.min 3 (length lines)) lines
                 ++ skipn (Nat.min 3 (length lines)) lines)
                (header_blocks lines ++ blocks))
    by (apply Forall2_app; [apply header_blocks_of_lines | assumption]).
  now rewrite firstn_skipn in G.
Qed.

(** X4. The document follows the text line by line: it has one block for
    each line, in the order of the lines, and the block of a line is made
    from that line alone (and the section it is scanned under): as a header
    paragraph of the line, as a section-header paragraph of the upper-cased
    line, or by the record, bullet, key/value or plain branch. *)
Theorem one_block_per_line (resume_text : str) :
  exists blocks,
    create_pdf_resume upper_ext resume_text = Returns blocks
    /\ length blocks = length (resume_lines resume_text)
    /\ Forall2 (block_of_line upper_ext) (resume_lines resume_text) blocks.
Proof.
  destruct (create_pdf_resume_blocks resume_text) as (blocks & H & HF).
  exists blocks. repeat split; try assumption.
  symmetry. exact (Forall2_length HF).
Qed.

(** X5. Every block of every document has one of a few shapes: a paragraph
    in the name, title, contact or body style; a section-header paragraph
    whose text is one of the six section names in upper case; a bullet
    paragraph that starts with the bullet sign and a space; a one-row table
    of a body cell and a date cell with widths 300 and 180; or a one-row
    table of a body cell that ends with a colon and a skill cell with widths
    150 and 330. *)
Theorem document_block_shapes (resume_text : str) :
  exists blocks,
    create_pdf_resume upper_ext resume_text = Returns blocks
    /\ Forall block_shape blocks.
Proof.
  destruct (create_pdf_resume_blocks resume_text) as (blocks & H & HF).
  exists blocks. split; [assumption|].
  clear H. induction HF as [|line b lines blocks Hb _ IH]; [constructor|].
  constructor; [exact (block_of_line_shape _ _ Hb) | exact IH].
Qed.

(** X6. Under SKILLS, a line with a colon that is neither a section header
    nor a bullet is cut at its first colon only: the left cell is what is
    before it, trimmed, with the colon put back; the right cell is all that
    is after it, trimmed, further colons included. *)
Theorem skills_row_cells (pre : list str) (line : str) (post : list str)
    (story0 : list flowable)
    (Hheader : is_section_header upper_ext line = false)
    (Hbullet : is_bullet_line line = false)
    (Hcolon : contains COLON line = true) :
  exists cat skills,
    line = cat ++ COLON :: skills
    /\ contains COLON cat = false
    /\ loop_body upper_ext (pre ++ line :: post)
         (mkScan (length pre) (py "SKILLS") story0) =
       Returns (mkScan (length pre + 1) (py "SKILLS")
                  (story0 ++
                   [Table [[Paragraph (strip cat ++ [COLON]) body_style;
                            Paragraph (strip skills) skill_style]]
                          [150; 330]%Z])).
Proof.
  destruct (split_max1_spec COLON line Hcolon) as (cat & skills & Hs & Hl & Hc).
  exists cat, skills. repeat split; try assumption.
  rewrite loop_body_middle, Hheader. unfold body_flowable.
  rewrite Hbullet, Hcolon, Hs. reflexivity.
Qed.

Lemma upper_char_ascii_case (x y : char) :
  Re.lower_ascii x = Re.lower_ascii y ->
  upper_char upper_ext x = upper_char upper_ext y.
Proof.
  unfold Re.lower_ascii, upper_char.
  destruct (N.leb_spec 65 x), (N.leb_spec x 90), (N.leb_spec 65 y),
    (N.leb_spec y 90); simpl; intros E;
    destruct (N.ltb_spec x 128), (N.ltb_spec y 128), (N.leb_spec 97 x),
      (N.leb_spec x 122), (N.leb_spec 97 y), (N.leb_spec y 122);
    simpl; try lia; try (f_equal; lia); try (subst; reflexivity).
Qed.

(** X7. The recognition of a section header does not depend on the case of
    ASCII letters: two lines that differ only there have the same
    upper-casing, are both section headers or both not, and a section header
    gives the same block and the same [current_section] however it is
    cased. *)
Theorem section_header_any_case (pre : list str) (a b : str) (post : list str)
    (cs : str) (story0 : list flowable)
    (Hcase : same_up_to_ascii_case a b) :
  line_upper upper_ext a = line_upper upper_ext b
  /\ is_section_header upper_ext a = is_section_header upper_ext b
  /\ (is_section_header upper_ext a = true ->
      loop_body upper_ext (pre ++ a :: post) (mkScan (length pre) cs story0) =
      loop_body upper_ext (pre ++ b :: post) (mkScan (length pre) cs story0)).
Proof.
  assert (Hu : line_upper upper_ext a = line_upper upper_ext b).
  { unfold line_upper, upper.
    induction Hcase as [|x y a b Hxy _ IH]; [reflexivity|].
    simpl. now rewrite (upper_char_ascii_case _ _ Hxy), IH. }
  assert (Hh : is_section_header upper_ext a = is_section_header upper_ext b)
    by (unfold is_section_header; now rewrite Hu).
  repeat split; try assumption.
  intros Ha. rewrite !loop_body_middle, <- Hh, Ha, Hu. reflexivity.
Qed.

End ScanInvariants.

(** ** What the substitutions of the cleanup remove *)

Lemma sub_from_skip (r : Re.regex) (m rest : str) :
  Re.sub_from r false (length m) (m ++ rest) = Re.sub_from r false 0 rest.
Proof. induction m as [|c m IH]; [reflexivity | exact IH]. Qed.

Lemma sub_from_not_at_start (r : Re.regex) (s : str) :
  Re.sub_from (Re.Bol :: r) false 0 s = s.
Proof. apply sub_from_no_match. induction s as [|c s IH]; [reflexivity | exact IH]. Qed.

(** A pattern that starts with [^] removes its match at the start of the
    string and nothing else. *)
Lemma sub_anchored (r : Re.regex) (s : str) :
  Re.sub (Re.Bol :: r) s =
    match Re.rmatch (Re.Bol :: r) true s with
    | Some rest => rest
    | None => s
    end.
Proof.
  unfold Re.sub. destruct s as [|c s].
  - destruct (Re.rmatch (Re.Bol :: r) true []) as [rest|] eqn:E; [|reflexivity].
    destruct (rmatch_suffix _ _ _ _ E) as (m & Hm).
    symmetry in Hm. apply app_eq_nil in Hm as [_ ->]. reflexivity.
  - cbn [Re.sub_from]. unfold Re.match_len.
    destruct (Re.rmatch (Re.Bol :: r) true (c :: s)) as [rest|] eqn:E.
    + destruct (rmatch_suffix _ _ _ _ E) as (m & Hm). rewrite Hm.
      rewrite length_app, Nat.add_sub.
      destruct m as [|x m].
      * simpl in Hm. subst rest. cbn [length]. now rewrite sub_from_not_at_start.
      * injection Hm as -> ->. cbn [length].
        rewrite sub_from_skip. apply sub_from_not_at_start.
    + now rewrite sub_from_not_at_start.
Qed.

(** X8. Each of the three substitutions that aim at a preamble ("Here is
    ... resume", "... formatted resume ...:", "... based on ...:") removes at
    most the one match at the very start of the text: what it returns is the
    text left after that match, a suffix of what it was given, and the text
    itself when there is no match at the start. *)
Theorem preamble_patterns_strip_a_prefix (s : str) :
  Forall (fun r =>
            Re.sub r s = match Re.rmatch r true s with
                         | Some rest => rest
                         | None => s
                         end
            /\ exists removed, s = removed ++ Re.sub r s)
         [RE_HERE_IS; RE_FORMATTED; RE_BASED_ON].
Proof.
  assert (H : forall r,
             Re.sub (Re.Bol :: r) s =
               match Re.rmatch (Re.Bol :: r) true s with
               | Some rest => rest
               | None => s
               end
             /\ exists removed, s = removed ++ Re.sub (Re.Bol :: r) s).
  { intros r. split; [apply sub_anchored|].
    rewrite sub_anchored.
    destruct (Re.rmatch (Re.Bol :: r) true s) as [rest|] eqn:E.
    - exact (rmatch_suffix _ _ _ _ E).
    - now exists []. }
  repeat constructor; apply H.
Qed.

(** *** The closing phrase *)

Lemma lit_step (p : char) (r : Re.regex) (bos : bool) (s rest : str) :
  Re.rmatch (Re.Lit p :: r) bos s = Some rest ->
  exists c s', s = c :: s' /\ Re.ci_eqb p c = true /\ Re.rmatch r false s' = Some rest.
Proof.
  cbn [Re.rmatch]. destruct s as [|c s]; [discriminate|].
  destruct (Re.ci_eqb p c) eqn:E; [|discriminate].
  intros H. now exists c, s.
Qed.

Lemma lits_step (w : str) (r : Re.regex) (bos : bool) (s rest : str) :
  forallb (fun p => negb (Re.ci_eqb p LF)) w = true ->
  Re.rmatch (map Re.Lit w ++ r) bos s = Some rest ->
  exists m s' bos',
    s = m ++ s' /\ length m = length w /\ contains LF m = false
    /\ Re.rmatch r bos' s' = Some rest.
Proof.
  revert bos s. induction w as [|p w IH]; intros bos s Hw H.
  - now exists [], s, bos.
  - simpl in Hw. apply andb_true_iff in Hw as [Hp Hw].
    change (map Re.Lit (p :: w) ++ r) with (Re.Lit p :: (map Re.Lit w ++ r)) in H.
    destruct (lit_step _ _ _ _ _ H) as (c & s' & -> & Hc & Hr).
    destruct (IH _ _ Hw Hr) as (m & s'' & bos' & -> & Hl & Hm & Hr').
    exists (c :: m), s'', bos'. repeat split; try assumption.
    + simpl. now rewrite Hl.
    + change (contains LF (c :: m)) with ((LF =? c) || contains LF m).
      rewrite Hm, orb_false_r.
      destruct (N.eqb_spec LF c) as [<-|]; [|reflexivity].
      rewrite Hc in Hp. discriminate.
Qed.

Lemma star_dot_step (r : Re.regex) (bos : bool) (s rest : str) :
  Re.rmatch (Re.Star Re.Dot :: r) bos s = Some rest ->
  exists m s' bos',
    s = m ++ s' /\ contains LF m = false /\ Re.rmatch r bos' s' = Some rest.
Proof.
  cbn [Re.rmatch]. cbv zeta. revert bos. induction s as [|c s IH]; intros bos.
  - intros H. now exists [], [], bos.
  - destruct (Re.in_class Re.Dot c) eqn:Ec;
      [|intros H; now exists [], (c :: s), bos].
    match goal with
    | |- match ?x with _ => _ end = _ -> _ => destruct x as [y|] eqn:Em
    end.
    + intros [= <-]. destruct (IH _ Em) as (m & s' & bos' & -> & Hm & Hr).
      exists (c :: m), s', bos'. repeat split; try assumption.
      change (contains LF (c :: m)) with ((LF =? c) || contains LF m).
      rewrite Hm, orb_false_r, N.eqb_sym. unfold Re.in_class in Ec.
      now destruct (c =? LF).
    + intros H. now exists [], (c :: s), bos.
Qed.

(** A match of the closing phrase has no line feed in it and runs to the end
    of the string, or to a line feed that ends the string. *)
Lemma i_hope_match (bos : bool) (s rest : str) :
  Re.rmatch RE_I_HOPE bos s = Some rest ->
  exists m,
    s = m ++ rest /\ (17 <= length m)%nat /\ contains LF m = false
    /\ (rest = [] \/ rest = [LF]).
Proof.
  intros H.
  change RE_I_HOPE with
    (map Re.Lit (py "I hope this helps") ++ [Re.Star Re.Dot; Re.Eol]) in H.
  apply lits_step in H as (m1 & s1 & b1 & -> & Hl & Hm1 & H); [|reflexivity].
  apply star_dot_step in H as (m2 & s2 & b2 & -> & Hm2 & H).
  cbn [Re.rmatch] in H. cbv zeta in H.
  destruct (Re.at_eol s2) eqn:Ee; [|discriminate]. injection H as <-.
  exists (m1 ++ m2). repeat split.
  - now rewrite app_assoc.
  - rewrite length_app, Hl. simpl. lia.
  - unfold contains. rewrite existsb_app. apply orb_false_iff. now split.
  - destruct s2 as [|c [|c' s2]]; simpl in Ee; try discriminate.
    + now left.
    + right. apply N.eqb_eq in Ee. now subst.
Qed.

(** The first match that [re.sub] finds, for a pattern whose matches are
    never empty. *)
Lemma sub_from_first_match (r : Re.regex) :
  (forall bos s rest, Re.rmatch r bos s = Some rest -> (length rest < length s)%nat) ->
  forall bos s,
    Re.sub_from r bos 0 s = s
    \/ exists kept m rest bos',
         s = kept ++ m ++ rest
         /\ Re.rmatch r bos' (m ++ rest) = Some rest
         /\ Re.sub_from r bos 0 s = kept ++ Re.sub_from r false 0 rest.
Proof.
  intros Hr bos s. revert bos. induction s as [|c s IH]; intros bos; [now left|].
  cbn [Re.sub_from]. unfold Re.match_len.
  destruct (Re.rmatch r bos (c :: s)) as [rest|] eqn:E.
  - right. pose proof (Hr _ _ _ E) as Hlt.
    destruct (rmatch_suffix _ _ _ _ E) as (m & Hm).
    exists [], m, rest, bos. rewrite Hm in E |- *.
    repeat split; try assumption.
    rewrite length_app, Nat.add_sub.
    destruct m as [|x m]; [simpl in Hm; subst; simpl in Hlt; lia|].
    injection Hm as -> ->. cbn [length app].
    now rewrite sub_from_skip.
  - destruct (IH false) as [->|(kept & m & rest & bos' & -> & Hm & Hs)];
      [now left|].
    right. exists (c :: kept), m, rest, bos'. rewrite Hs. repeat split.
    assumption.
Qed.

(** X9. The substitution of the closing phrase ("I hope this helps ...")
    removes at most one piece of the text; the piece has no line feed in it
    and runs to the end of the text (a line feed that ends the text is
    kept). So the phrase is removed only where it stands on the last line:
    with lines after it, the text stays as it is. *)
Theorem closing_phrase_removed_only_at_end (s : str) :
  (Re.sub RE_I_HOPE s = s
   \/ exists kept removed tail,
        s = kept ++ removed ++ tail
        /\ (17 <= length removed)%nat
        /\ contains LF removed = false
        /\ (tail = [] \/ tail = [LF])
        /\ Re.sub RE_I_HOPE s = kept ++ tail)
  /\ Re.sub RE_I_HOPE
       (py "Jane Doe" ++ LF :: py "I hope this helps!" ++ LF :: py "Engineer") =
     py "Jane Doe" ++ LF :: py "I hope this helps!" ++ LF :: py "Engineer".
Proof.
  split; [|vm_compute; reflexivity].
  assert (Hr : forall bos s rest,
             Re.rmatch RE_I_HOPE bos s = Some rest -> (length rest < length s)%nat).
  { intros bos s' rest. apply cleanup_patterns_consume. simpl. tauto. }
  destruct (sub_from_first_match RE_I_HOPE Hr true s)
    as [H|(kept & m & rest & bos' & Hs & Hm & Hsub)]; [now left|].
  right. destruct (i_hope_match _ _ _ Hm) as (m' & Hm' & Hl & Hlf & Hrest).
  apply app_inv_tail in Hm'. subst m'.
  exists kept, m, rest. repeat split; try assumption.
  unfold Re.sub. rewrite Hsub.
  destruct Hrest as [->| ->]; reflexivity.
Qed.

(** ** The cleanup only deletes *)

Lemma subseq_refl {A : Type} (l : list A) : subseq l l.
Proof. induction l; [constructor | now apply subseq_keep]. Qed.

Lemma subseq_trans {A : Type} (a b c : list A) :
  subseq a b -> subseq b c -> subseq a c.
Proof.
  intros Hab Hbc. revert a Hab.
  induction Hbc as [|x b c Hbc IH|x b c Hbc IH]; intros a Hab.
  - assumption.
  - constructor. now apply IH.
  - inversion Hab; subst.
    + apply subseq_skip. now apply IH.
    + apply subseq_keep. now apply IH.
Qed.

Lemma subseq_app_l {A : Type} (a b : list A) : subseq a (a ++ b).
Proof.
  induction a as [|x a IH]; simpl.
  - induction b; constructor; assumption.
  - now apply subseq_keep.
Qed.

Lemma subseq_length {A : Type} (a b : list A) :
  subseq a b -> (length a <= length b)%nat.
Proof. induction 1; simpl; lia. Qed.

Lemma dropwhile_subseq (p : char -> bool) (s : str) : subseq (dropwhile p s) s.
Proof.
  induction s as [|c s IH]; simpl; [constructor|].
  destruct (p c); [now apply subseq_skip | apply subseq_refl].
Qed.

Lemma rstrip_subseq (p : char -> bool) (s : str) : subseq (rstrip_by p s) s.
Proof.
  unfold rstrip_by. destruct (dropwhile_suffix p (rev s)) as (w & Hw).
  apply (f_equal (@rev char)) in Hw.
  rewrite rev_involutive, rev_app_distr in Hw.
  rewrite Hw at 2. apply subseq_app_l.
Qed.

Lemma strip_subseq (s : str) : subseq (strip s) s.
Proof.
  unfold strip, lstrip_by.
  eapply subseq_trans; [apply rstrip_subseq | apply dropwhile_subseq].
Qed.

Lemma sub_from_subseq (r : Re.regex) (bos : bool) (skip : nat) (s : str) :
  subseq (Re.sub_from r bos skip s) s.
Proof.
  revert bos skip. induction s as [|c s IH]; intros bos skip; [constructor|].
  cbn [Re.sub_from]. destruct skip as [|n]; [|apply subseq_skip; apply IH].
  destruct (Re.match_len r bos (c :: s)) as [[|n]|];
    [apply subseq_keep | apply subseq_skip | apply subseq_keep]; apply IH.
Qed.

(** X10. The cleanup only deletes: its result is what is left of the
    completion's text after some of its characters are taken out, in their
    order and none added; it is never longer than the text, and it has no
    blank at either end. *)
Theorem cleanup_only_deletes (content : str) :
  subseq (cleanup content) content
  /\ (length (cleanup content) <= length content)%nat
  /\ strip (cleanup content) = cleanup content.
Proof.
  assert (H : subseq (cleanup content) content).
  { unfold cleanup, remove_intro_outro, Re.sub. cbv zeta.
    eapply subseq_trans; [apply strip_subseq|].
    repeat (eapply subseq_trans; [apply sub_from_subseq|]).
    apply strip_subseq. }
  split; [exact H|]. split; [exact (subseq_length _ _ H)|].
  apply cleanup_is_trimmed.
Qed.

(** ** The formatter with the layout library in it *)

Lemma first_error_app {A : Type} (f : A -> option exn) (l1 l2 : list A) :
  first_error f (l1 ++ l2) =
    match first_error f l1 with
    | Some e => Some e
    | None => first_error f l2
    end.
Proof.
  induction l1 as [|a l1 IH]; simpl; [reflexivity|].
  destruct (f a); [reflexivity | assumption].
Qed.

Section RenderedFacts.

Variable upper_ext : char -> str.
Variable paragraph_error : str -> style -> option exn.
Variable build_error : list flowable -> option exn.

(** A branch of the [if]/[elif] chain raises only where the library rejects
    a paragraph of the block of the branch, and then the exception of the
    library. *)
Lemma body_flowable_rendered (cs line : str) (b : flowable) :
  body_flowable cs line = Returns b ->
  Rendered.body_flowable paragraph_error cs line =
    match flowable_error paragraph_error b with
    | Some e => Raises e
    | None => Returns b
    end.
Proof.
  unfold body_flowable, Rendered.body_flowable, Rendered.new_paragraph.
  destruct (in_list cs RECORD_SECTIONS && contains PIPE line).
  - destruct (getitem (map strip (split PIPE line)) 0) as [left| |];
      simpl; try discriminate.
    intros [= <-]. simpl.
    destruct (paragraph_error left body_style); simpl; [reflexivity|].
    destruct (paragraph_error _ date_style); reflexivity.
  - destruct (is_bullet_line line).
    + intros [= <-]. simpl.
      destruct (paragraph_error _ bullet_style); reflexivity.
    + destruct (str_eqb cs (py "SKILLS") && contains COLON line).
      * destruct (unpack2 (split_max1 COLON line)) as [[cat skills]| |];
          simpl; try discriminate.
        intros [= <-]. simpl.
        destruct (paragraph_error (strip cat ++ [COLON]) body_style);
          simpl; [reflexivity|].
        destruct (paragraph_error _ skill_style); reflexivity.
      * intros [= <-]. simpl.
        destruct (paragraph_error line body_style); reflexivity.
Qed.

Lemma loop_body_rendered (lines : list str) (st st' : scan_state) :
  loop_body upper_ext lines st = Returns st' ->
  exists b,
    story st' = story st ++ [b]
    /\ Rendered.loop_body upper_ext paragraph_error lines st =
         match flowable_error paragraph_error b with
         | Some e => Raises e
         | None => Returns st'
         end.
Proof.
  unfold loop_body, Rendered.loop_body, Rendered.new_paragraph.
  destruct (getitem lines (i st)) as [line| |]; simpl; try discriminate.
  destruct (is_section_header upper_ext line).
  - intros [= <-]. eexists. split; [reflexivity|]. simpl.
    destruct (paragraph_error _ section_title_style); reflexivity.
  - destruct (body_flowable (current_section st) line) as [b| |] eqn:Eb;
      simpl; try discriminate.
    intros [= <-]. exists b. split; [reflexivity|].
    rewrite (body_flowable_rendered _ _ _ Eb).
    destruct (flowable_error paragraph_error b); reflexivity.
Qed.

Lemma while_loop_rendered (fuel : nat) (lines : list str)
    (st st' : scan_state) (blocks : list flowable) :
  while_loop upper_ext fuel lines st = Returns st' ->
  story st' = story st ++ blocks ->
  Rendered.while_loop upper_ext paragraph_error fuel lines st =
    match first_error (flowable_error paragraph_error) blocks with
    | Some e => Raises e
    | None => Returns st'
    end.
Proof.
  revert st blocks. induction fuel as [|fuel IH]; intros st blocks H Hs;
    simpl in H |- *;
    destruct (i st <? length lines)%nat; try discriminate.
  - injection H as <-. rewrite <- (app_nil_r (story st)) in Hs at 1.
    apply app_inv_head in Hs. now subst.
  - destruct (loop_body upper_ext lines st) as [st1| |] eqn:Eb;
      simpl in H; try discriminate.
    destruct (loop_body_rendered _ _ _ Eb) as (b & Hb & ->).
    destruct (while_loop_story_length _ _ _ _ _ H) as (blocks1 & H1 & _).
    rewrite H1, Hb, <- app_assoc in Hs. apply app_inv_head in Hs. subst blocks.
    cbn [app first_error].
    destruct (flowable_error paragraph_error b); simpl; [reflexivity|].
    now apply IH.
  - injection H as <-. rewrite <- (app_nil_r (story st)) in Hs at 1.
    apply app_inv_head in Hs. now subst.
Qed.

Ltac header_simpl :=
  cbn [length Nat.ltb Nat.leb getitem nth_error bind i story current_section
       Nat.add Nat.min combine map app first_error flowable_error para_error].

Ltac finish_render :=
  match goal with
  | Hr : Rendered.while_loop _ _ _ _ _ = _, Hs : story _ = _ |- _ =>
      rewrite Hr;
      match goal with
      | |- context [first_error ?f ?blocks] => destruct (first_error f blocks)
      end;
      cbn [bind]; [|unfold Rendered.doc_build; rewrite Hs]; reflexivity
  end.

(** The function raises exactly where the library rejects a paragraph of the
    story or the layout of the story: the scan raises nothing of its own. *)
Lemma create_pdf_resume_rendered (resume_text : str) :
  exists story,
    create_pdf_resume upper_ext resume_text = Returns story
    /\ Rendered.create_pdf_resume upper_ext paragraph_error build_error
         resume_text =
       rendered paragraph_error build_error story.
Proof.
  rewrite create_pdf_resume_scan. unfold Rendered.create_pdf_resume.
  set (lines := resume_lines resume_text).
  destruct (while_loop_total upper_ext (length lines) lines
              (mkScan (Nat.min 3 (length lines)) [] (header_blocks lines)))
    as (st & Hst); [simpl; lia|].
  rewrite Hst. exists (story st). split; [reflexivity|].
  destruct (while_loop_story_length _ _ _ _ _ Hst) as (blocks & Hs & _).
  cbn [story] in Hs.
  pose proof (while_loop_rendered _ _ _ _ _ Hst Hs) as Hr.
  unfold rendered. rewrite Hs, first_error_app.
  clearbody lines. clear Hst.
  unfold Rendered.header_line, Rendered.new_paragraph, header_blocks in *.
  destruct lines as [|l0 [|l1 [|l2 rest]]];
    cbn [length Nat.ltb Nat.leb getitem nth_error bind i story current_section
         Nat.add Nat.min combine map app first_error flowable_error
         para_error] in *;
    rewrite ?combine_nil in *; cbn [map app first_error] in *.
  - finish_render.
  - destruct (paragraph_error l0 name_style); header_simpl; [reflexivity|].
    finish_render.
  - destruct (paragraph_error l0 name_style); header_simpl; [reflexivity|].
    destruct (paragraph_error l1 title_style); header_simpl; [reflexivity|].
    finish_render.
  - destruct (paragraph_error l0 name_style); header_simpl; [reflexivity|].
    destruct (paragraph_error l1 title_style); header_simpl; [reflexivity|].
    destruct (paragraph_error l2 contact_style); header_simpl; [reflexivity|].
    finish_render.
Qed.

(** The function never runs out of fuel: it returns the story or raises an
    exception of the library. *)
Lemma rendered_cases (story : list flowable) :
  rendered paragraph_error build_error story = Returns story
  \/ exists e, rendered paragraph_error build_error story = Raises e.
Proof.
  unfold rendered.
  destruct (first_error (flowable_error paragraph_error) story);
    [right; eexists; reflexivity|].
  destruct (build_error story); [right; eexists; reflexivity | now left].
Qed.

End RenderedFacts.

(** ** The endpoints, case by case *)

(** The completion call on a request object: one outbound call with the
    prompt of the request, and the cleaned text of the completion or
    [None]. *)
Lemma generate_resume_text_object (net : post_result)
    (members : list (str * json)) (t : calls) :
  exists payload,
    create_resume_prompt (JObj members) = Returns payload
    /\ generate_resume_text net (JObj members) t =
         (Returns (completion_text net), t ++ [payload]).
Proof.
  destruct (create_resume_prompt_object members) as (payload & Hp).
  exists payload. split; [assumption|].
  unfold generate_resume_text, generate_resume_text_try, try_except, io_bind,
    lift, requests_post, io_ret, completion_text.
  rewrite Hp.
  destruct net as [|status_code [result|]]; simpl; try reflexivity.
  pose proof (extract_content_spec result) as H.
  destruct (extract_content result) as [v| |]; simpl;
    [now rewrite H | now rewrite H | contradiction].
Qed.

Lemma name_or_email_missing_object (members : list (str * json)) :
  exists b, name_or_email_missing (JObj members) = Returns b.
Proof.
  unfold name_or_email_missing.
  destruct (truthy (JObj members)); cbn [negb]; [|eexists; reflexivity].
  cbn [py_get bind].
  destruct (truthy match lookup (py "name") members with
                   | Some x => x | None => JNull end);
    cbn [negb]; eexists; reflexivity.
Qed.

Lemma name_or_email_missing_passes (data : json) :
  has_name_and_email data -> name_or_email_missing data = Returns false.
Proof.
  intros (members & name & email & -> & Hn & Htn & He & Hte).
  unfold name_or_email_missing.
  destruct members as [|m members]; [discriminate|].
  cbn [truthy is_nil negb py_get bind]. rewrite Hn, Htn. cbn [negb].
  now rewrite He, Hte.
Qed.

Lemma replace_no_space (s : str) : contains SPACE (replace SPACE 95 s) = false.
Proof.
  unfold contains, replace. induction s as [|c s IH]; [reflexivity|].
  cbn [map existsb]. rewrite IH, orb_false_r.
  destruct (N.eqb_spec c SPACE) as [->|Hne]; [reflexivity|].
  now apply N.eqb_neq, not_eq_sym.
Qed.

(** X11. For a request body with a name and an email, /generate calls the
    completion endpoint once, with the prompt of the request, and answers
    200 with the cleaned text when the completion has a text that is not
    empty once cleaned; in every other case (no usable completion, or a
    completion that the cleanup leaves empty) it answers 500 with "Failed
    to generate resume". *)
Theorem generate_resume_answer (net : post_result) (data : json) (t : calls)
    (Hdata : has_name_and_email data) :
  exists payload,
    create_resume_prompt data = Returns payload
    /\ generate_resume net (GetJsonReturns data) t =
         (Returns
            match completion_text net with
            | Some (c :: text) => mkResponse 200 (ResumeJson (c :: text))
            | _ => mkResponse 500 (ErrorJson FailedToGenerate)
            end,
          t ++ [payload]).
Proof.
  pose proof (name_or_email_missing_passes _ Hdata) as Hcheck.
  destruct Hdata as (members & name & email & -> & _).
  destruct (generate_resume_text_object net members t) as (payload & Hp & Hg).
  exists payload. split; [assumption|].
  unfold generate_resume, try_except, io_bind, lift, request_get_json, io_ret.
  rewrite Hcheck, Hg.
  destruct (completion_text net) as [[|c text]|]; reflexivity.
Qed.

Lemma generate_resume_answer_witness :
  has_name_and_email example_request
  /\ exists payload,
       create_resume_prompt example_request = Returns payload
       /\ generate_resume
            (PostResponse 200
               (Some (JObj [(py "choices",
                             JArr [JObj [(py "message",
                                          JObj [(py "content",
                                                 JStr (py "Here is your resume: "))])]])])))
            (GetJsonReturns example_request) [] =
          (Returns
             match completion_text
                     (PostResponse 200
                        (Some (JObj [(py "choices",
                                      JArr [JObj [(py "message",
                                                   JObj [(py "content",
                                                          JStr (py "Here is your resume: "))])]])])))
             with
             | Some (c :: text) => mkResponse 200 (ResumeJson (c :: text))
             | _ => mkResponse 500 (ErrorJson FailedToGenerate)
             end,
           [] ++ [payload]).
Proof.
  assert (H : has_name_and_email example_request).
  { exists [(py "name", JStr (py "Jane Doe")); (py "email", JStr (py "jane@x.com"))],
      (JStr (py "Jane Doe")), (JStr (py "jane@x.com")).
    repeat split. }
  split; [exact H|].
  apply (generate_resume_answer _ example_request [] H).
Defined.

(** A completion that is nothing but a preamble is a failure of the
    generation, though the completion endpoint answered 200. *)
Example preamble_only_completion_fails :
  fst (generate_resume
         (PostResponse 200
            (Some (JObj [(py "choices",
                          JArr [JObj [(py "message",
                                       JObj [(py "content",
                                              JStr (py "Here is your resume: "))])]])])))
         (GetJsonReturns example_request) []) =
  Returns (mkResponse 500 (ErrorJson FailedToGenerate)).
Proof. vm_compute. reflexivity. Qed.

Ltac answered :=
  do 2 eexists; split; [reflexivity|];
  split; [simpl; tauto | first [left; reflexivity | right; eexists; reflexivity]].

(** X12. Both endpoints answer every request, whatever [get_json] gives and
    whatever the completion endpoint does: no exception leaves them, the
    status is 200, 400 or 500, and at most one outbound call is made. *)
Theorem endpoints_always_answer (net : post_result) (upper_ext : char -> str)
    (paragraph_error : str -> style -> option exn)
    (build_error : list flowable -> option exn) (send_file_error : str -> option exn)
    (req : get_json_result) (t : calls) :
  (exists resp t',
      generate_resume net req t = (Returns resp, t')
      /\ In (status resp) [200; 400; 500]%Z
      /\ (t' = t \/ exists payload, t' = t ++ [payload]))
  /\ (exists resp t',
         generate_pdf_resume net upper_ext paragraph_error build_error
           send_file_error req t = (Returns resp, t')
         /\ In (status resp) [200; 400; 500]%Z
         /\ (t' = t \/ exists payload, t' = t ++ [payload])).
Proof.
  unfold generate_resume, generate_pdf_resume, try_except, io_bind, lift,
    request_get_json, io_ret.
  destruct req as [|data].
  { split; answered. }
  destruct data as [| |z|f|s|items|members];
    try (split; answered).
  - destruct b;
      split; answered.
  - unfold name_or_email_missing. destruct (truthy (JInt z));
      split; answered.
  - unfold name_or_email_missing. destruct (truthy (JFloat f));
      split; answered.
  - destruct s;
      split; answered.
  - destruct items;
      split; answered.
  - destruct (name_or_email_missing_object members) as (b & ->).
    destruct b.
    { split; answered. }
    destruct (generate_resume_text_object net members t) as (payload & _ & ->).
    destruct (completion_text net) as [[|c text]|].
    + split; answered.
    + split.
      * answered.
      * destruct (create_pdf_resume_rendered upper_ext paragraph_error
                    build_error (c :: text)) as (story & _ & ->).
        destruct (rendered_cases paragraph_error build_error story)
          as [->|(e & ->)]; try answered.
        destruct (file_stem (JObj members)) as [stem|e|] eqn:Es.
        -- unfold send_file.
           destruct (send_file_error (stem ++ py "_resume.pdf")); answered.
        -- answered.
        -- unfold file_stem in Es. cbn [py_get bind] in Es.
           destruct (match lookup (py "name") members with
                     | Some x => x | None => JStr (py "resume") end);
             discriminate.
    + split; answered.
Qed.

(** X13. A request body that counts as true but is no object (a JSON array,
    string or number) is not answered with the validation error: reading
    its name raises, and both endpoints answer 500 with the text of that
    exception, without an outbound call. The same holds, with its own
    exception, when [get_json] raises. *)
Theorem non_object_body_gets_500 (net : post_result) (upper_ext : char -> str)
    (paragraph_error : str -> style -> option exn)
    (build_error : list flowable -> option exn) (send_file_error : str -> option exn)
    (data : json) (t : calls)
    (Htrue : truthy data = true)
    (Hshape : forall members, data <> JObj members) :
  generate_resume net (GetJsonReturns data) t =
    (Returns (mkResponse 500 (ErrorJson (ExceptionText AttributeError))), t)
  /\ generate_pdf_resume net upper_ext paragraph_error build_error
       send_file_error (GetJsonReturns data) t =
       (Returns (mkResponse 500 (ErrorJson (ExceptionText AttributeError))), t)
  /\ generate_resume net GetJsonRaises t =
       (Returns (mkResponse 500 (ErrorJson (ExceptionText HTTPException))), t)
  /\ generate_pdf_resume net upper_ext paragraph_error build_error
       send_file_error GetJsonRaises t =
       (Returns (mkResponse 500 (ErrorJson (ExceptionText HTTPException))), t).
Proof.
  unfold generate_resume, generate_pdf_resume, try_except, io_bind, lift,
    request_get_json, io_ret, name_or_email_missing.
  rewrite Htrue. cbn [negb].
  destruct data as [| | | | | |members];
    try (repeat split; reflexivity).
  now elim (Hshape members).
Qed.

Lemma non_object_body_gets_500_witness :
  truthy (JArr [JStr (py "Jane Doe")]) = true
  /\ (forall members, JArr [JStr (py "Jane Doe")] <> JObj members)
  /\ generate_resume (PostResponse 200 (Some body_with_choice))
       (GetJsonReturns (JArr [JStr (py "Jane Doe")])) [] =
     (Returns (mkResponse 500 (ErrorJson (ExceptionText AttributeError))), []).
Proof.
  assert (H1 : truthy (JArr [JStr (py "Jane Doe")]) = true) by reflexivity.
  assert (H2 : forall members, JArr [JStr (py "Jane Doe")] <> JObj members)
    by discriminate.
  split; [exact H1|]. split; [exact H2|].
  apply (proj1 (non_object_body_gets_500 (PostResponse 200 (Some body_with_choice))
                  upper_ext_id accepts_all_paragraphs builds_all sends_all
                  _ [] H1 H2)).
Defined.

(** What /generate answering 200 with a text says about the run. *)
Lemma generate_resume_200 (net : post_result) (members : list (str * json))
    (text : str) (t t' : calls) :
  generate_resume net (GetJsonReturns (JObj members)) t =
    (Returns (mkResponse 200 (ResumeJson text)), t') ->
  name_or_email_missing (JObj members) = Returns false
  /\ (exists c text', text = c :: text')
  /\ generate_resume_text net (JObj members) t = (Returns (Some text), t')
  /\ exists payload, t' = t ++ [payload].
Proof.
  unfold generate_resume, try_except, io_bind, lift, request_get_json, io_ret.
  destruct (name_or_email_missing_object members) as (b & ->).
  destruct b; [discriminate|].
  destruct (generate_resume_text_object net members t) as (payload & _ & ->).
  destruct (completion_text net) as [[|c text']|]; try discriminate.
  intros [= <- <-]. repeat split; eauto.
Qed.

(** X14. The two endpoints work on the same text: whenever /generate answers
    200 with a text for a request whose name is a string, /generate-pdf,
    given the same request and the same completion, makes the same outbound
    call and builds the document of that very text. It answers 200 with
    that document when the layout library takes every paragraph of it and
    lays it out and [send_file] takes the file name; otherwise it answers
    500 with the text of the exception that the library raises: that of the
    first paragraph it rejects, else that of the layout, else that of
    [send_file]. The file is named after the name with every space turned
    into an underscore, followed by "_resume.pdf", so its name has no
    space. *)
Theorem pdf_is_made_of_the_generated_text (net : post_result)
    (upper_ext : char -> str) (paragraph_error : str -> style -> option exn)
    (build_error : list flowable -> option exn) (send_file_error : str -> option exn)
    (members : list (str * json)) (name text : str) (t t' : calls)
    (Hname : lookup (py "name") members = Some (JStr name))
    (Htext : generate_resume net (GetJsonReturns (JObj members)) t =
               (Returns (mkResponse 200 (ResumeJson text)), t')) :
  exists story,
    Rendered.create_pdf_resume upper_ext paragraph_error build_error text =
      rendered paragraph_error build_error story
    /\ generate_pdf_resume net upper_ext paragraph_error build_error
         send_file_error (GetJsonReturns (JObj members)) t =
         (Returns
            match first_error (flowable_error paragraph_error) story with
            | Some e => mkResponse 500 (ErrorJson (ExceptionText e))
            | None =>
                match build_error story with
                | Some e => mkResponse 500 (ErrorJson (ExceptionText e))
                | None =>
                    match send_file_error
                            (replace SPACE 95 name ++ py "_resume.pdf") with
                    | Some e => mkResponse 500 (ErrorJson (ExceptionText e))
                    | None =>
                        mkResponse 200
                          (PdfFile story
                             (replace SPACE 95 name ++ py "_resume.pdf"))
                    end
                end
            end,
          t')
    /\ contains SPACE (replace SPACE 95 name ++ py "_resume.pdf") = false.
Proof.
  destruct (generate_resume_200 _ _ _ _ _ Htext)
    as (Hcheck & (c & text' & ->) & Hg & _).
  destruct (create_pdf_resume_rendered upper_ext paragraph_error build_error
              (c :: text')) as (story & Hs & Hr).
  exists story. split; [exact Hr|]. split.
  - unfold generate_pdf_resume, try_except, io_bind, lift, request_get_json,
      io_ret, file_stem, send_file.
    rewrite Hcheck, Hg, Hr. unfold rendered.
    destruct (first_error (flowable_error paragraph_error) story); [reflexivity|].
    destruct (build_error story); [reflexivity|].
    cbn [py_get bind]. rewrite Hname.
    destruct (send_file_error (replace SPACE 95 name ++ py "_resume.pdf"));
      reflexivity.
  - unfold contains. rewrite existsb_app. apply orb_false_iff. split.
    + apply replace_no_space.
    + reflexivity.
Qed.

Lemma pdf_is_made_of_the_generated_text_witness :
  lookup (py "name")
    [(py "name", JStr (py "Jane Doe")); (py "email", JStr (py "jane@x.com"))]
  = Some (JStr (py "Jane Doe"))
  /\ generate_resume (PostResponse 200 (Some body_with_choice))
       (GetJsonReturns example_request) [] =
     (Returns (mkResponse 200 (ResumeJson (py "Jane Doe"))),
      [[JStr (py "Jane Doe"); JStr []; JStr (py "jane@x.com");
        JStr []; JStr []; JStr []; JStr []]])
  /\ exists story,
       Rendered.create_pdf_resume upper_ext_id rejects_unclosed_tag builds_all
         (py "Jane Doe") = rendered rejects_unclosed_tag builds_all story
       /\ generate_pdf_resume (PostResponse 200 (Some body_with_choice)) upper_ext_id
            rejects_unclosed_tag builds_all sends_all
            (GetJsonReturns example_request) [] =
          (Returns
             match first_error (flowable_error rejects_unclosed_tag) story with
             | Some e => mkResponse 500 (ErrorJson (ExceptionText e))
             | None =>
                 match builds_all story with
                 | Some e => mkResponse 500 (ErrorJson (ExceptionText e))
                 | None =>
                     match sends_all
                             (replace SPACE 95 (py "Jane Doe") ++ py "_resume.pdf") with
                     | Some e => mkResponse 500 (ErrorJson (ExceptionText e))
                     | None =>
                         mkResponse 200
                           (PdfFile story
                              (replace SPACE 95 (py "Jane Doe") ++ py "_resume.pdf"))
                     end
                 end
             end,
           [[JStr (py "Jane Doe"); JStr []; JStr (py "jane@x.com");
             JStr []; JStr []; JStr []; JStr []]])
       /\ contains SPACE (replace SPACE 95 (py "Jane Doe") ++ py "_resume.pdf")
          = false.
Proof.
  assert (H1 : lookup (py "name")
                 [(py "name", JStr (py "Jane Doe"));
                  (py "email", JStr (py "jane@x.com"))]
               = Some (JStr (py "Jane Doe"))) by reflexivity.
  assert (H2 : generate_resume (PostResponse 200 (Some body_with_choice))
                 (GetJsonReturns example_request) [] =
               (Returns (mkResponse 200 (ResumeJson (py "Jane Doe"))),
                [[JStr (py "Jane Doe"); JStr []; JStr (py "jane@x.com");
                  JStr []; JStr []; JStr []; JStr []]]))
    by (vm_compute; reflexivity).
  split; [exact H1|]. split; [exact H2|].
  apply (pdf_is_made_of_the_generated_text _ upper_ext_id rejects_unclosed_tag
           builds_all sends_all _ _ _ _ _ H1 H2).
Defined.

(** A completion with markup that the library rejects: /generate answers
    200 with the text, /generate-pdf answers 500. *)
Example rejected_markup_gives_500 :
  generate_pdf_resume
    (PostResponse 200
       (Some (JObj [(py "choices",
                     JArr [JObj [(py "message",
                                  JObj [(py "content",
                                         JStr (py "<b>unclosed"))])]])])))
    upper_ext_id rejects_unclosed_tag builds_all sends_all
    (GetJsonReturns example_request) [] =
  (Returns (mkResponse 500 (ErrorJson (ExceptionText ValueError))),
   [[JStr (py "Jane Doe"); JStr []; JStr (py "jane@x.com");
     JStr []; JStr []; JStr []; JStr []]]).
Proof. vm_compute. reflexivity. Qed.



(** X16. The connection test makes one outbound call and always answers. It
    answers 200 exactly when the completion endpoint answers with status
    200, whatever the body; any other status, 2xx included, gives 500 with
    "API connection failed", and a transport error gives 500 with the text
    of the exception. *)
Theorem test_api_answer (net : post_result) (t : calls) :
  exists resp,
    test_api net t = (Returns resp, t ++ [test_api_payload])
    /\ (fst resp = 200%Z <-> exists body, net = PostResponse 200 body)
    /\ (forall status_code body,
          net = PostResponse status_code body -> status_code <> 200%Z ->
          resp = (500%Z, ConnectionFailed))
    /\ (net = PostRaises -> resp = (500%Z, TestApiException RequestException)).
Proof.
  unfold test_api, try_except, io_bind, lift, requests_post, io_ret,
    response_status_code.
  destruct net as [|status_code body].
  - eexists. split; [reflexivity|]. repeat split; try discriminate.
    intros (body & H). discriminate.
  - destruct (Z.eqb_spec status_code 200) as [->|Hne].
    + eexists. split; [reflexivity|]. repeat split; try discriminate.
      * intros _. now exists body.
      * intros sc b [= <- <-] H. now elim H.
    + eexists. split; [reflexivity|]. repeat split; try discriminate.
      * intros (b & [= -> _]). now elim Hne.
Qed.

(** A status of 204 is a failure of the connection test. *)
Example test_api_204 :
  test_api (PostResponse 204 None) [] =
    (Returns (500%Z, ConnectionFailed), [test_api_payload]).
Proof. reflexivity. Qed.

(** ** The hypotheses of the further statements, at concrete inputs *)

Lemma lines_compose_over_line_feeds_witness :
  forallb isspace (py "   ") = true
  /\ resume_lines (py "Jane Doe" ++ LF :: py "Engineer")
     = resume_lines (py "Jane Doe") ++ resume_lines (py "Engineer")
  /\ resume_lines (py "Jane Doe" ++ LF :: py "   " ++ LF :: py "Engineer")
     = resume_lines (py "Jane Doe" ++ LF :: py "Engineer")
  /\ create_pdf_resume upper_ext_id
       (py "Jane Doe" ++ LF :: py "   " ++ LF :: py "Engineer")
     = create_pdf_resume upper_ext_id (py "Jane Doe" ++ LF :: py "Engineer").
Proof.
  assert (H : forallb isspace (py "   ") = true) by reflexivity.
  split; [exact H|].
  apply (lines_compose_over_line_feeds upper_ext_id (py "Jane Doe") (py "   ")
           (py "Engineer") H).
Defined.

Lemma blank_text_gives_empty_document_witness :
  forallb isspace [SPACE; LF; 9; LF; 13; LF] = true
  /\ create_pdf_resume upper_ext_id [SPACE; LF; 9; LF; 13; LF] = Returns [].
Proof.
  assert (H : forallb isspace [SPACE; LF; 9; LF; 13; LF] = true) by reflexivity.
  split; [exact H|].
  apply (blank_text_gives_empty_document upper_ext_id _ H).
Defined.

Lemma skills_row_cells_witness :
  is_section_header upper_ext_id (py "Tools: Git: advanced") = false
  /\ is_bullet_line (py "Tools: Git: advanced") = false
  /\ contains COLON (py "Tools: Git: advanced") = true
  /\ exists cat skills,
       py "Tools: Git: advanced" = cat ++ COLON :: skills
       /\ contains COLON cat = false
       /\ loop_body upper_ext_id ([py "SKILLS"] ++ py "Tools: Git: advanced" :: [])
            (mkScan (length [py "SKILLS"]) (py "SKILLS") []) =
          Returns (mkScan (length [py "SKILLS"] + 1) (py "SKILLS")
                     ([] ++
                      [Table [[Paragraph (strip cat ++ [COLON]) body_style;
                               Paragraph (strip skills) skill_style]]
                             [150; 330]%Z])).
Proof.
  assert (H1 : is_section_header upper_ext_id (py "Tools: Git: advanced") = false)
    by (vm_compute; reflexivity).
  assert (H2 : is_bullet_line (py "Tools: Git: advanced") = false)
    by (vm_compute; reflexivity).
  assert (H3 : contains COLON (py "Tools: Git: advanced") = true)
    by (vm_compute; reflexivity).
  split; [exact H1|]. split; [exact H2|]. split; [exact H3|].
  apply (skills_row_cells upper_ext_id [py "SKILLS"] (py "Tools: Git: advanced")
           [] [] H1 H2 H3).
Defined.

(** The row of "Tools: Git: advanced": the second colon stays in the right
    cell. *)
Example skills_row_two_colons :
  body_flowable (py "SKILLS") (py "Tools: Git: advanced") =
    Returns (Table [[Paragraph (py "Tools:") body_style;
                     Paragraph (py "Git: advanced") skill_style]]
                   [150; 330]%Z).
Proof. vm_compute. reflexivity. Qed.

Lemma section_header_any_case_witness :
  same_up_to_ascii_case (py "Skills") (py "sKILLS")
  /\ line_upper upper_ext_id (py "Skills") = line_upper upper_ext_id (py "sKILLS")
  /\ is_section_header upper_ext_id (py "Skills")
     = is_section_header upper_ext_id (py "sKILLS").
Proof.
  assert (H : same_up_to_ascii_case (py "Skills") (py "sKILLS"))
    by (repeat constructor).
  split; [exact H|].
  destruct (section_header_any_case upper_ext_id [] (py "Skills") (py "sKILLS")
              [] [] [] H) as (H1 & H2 & _).
  split; [exact H1 | exact H2].
Defined.

(** ** Blanks around a line *)

Lemma dropwhile_app_all (p : char -> bool) (v t : str) :
  forallb p v = true -> dropwhile p (v ++ t) = dropwhile p t.
Proof.
  induction v as [|c v IH]; simpl; [reflexivity|].
  destruct (p c); [assumption | discriminate].
Qed.

Lemma dropwhile_nil_all (p : char -> bool) (x : str) :
  dropwhile p x = [] -> forallb p x = true.
Proof.
  induction x as [|c x IH]; simpl; [reflexivity|].
  destruct (p c); [assumption | discriminate].
Qed.

Lemma dropwhile_app_stop (p : char -> bool) (x v : str) :
  dropwhile p x <> [] -> dropwhile p (x ++ v) = dropwhile p x ++ v.
Proof.
  induction x as [|c x IH]; simpl; [congruence|].
  destruct (p c); [assumption | reflexivity].
Qed.

Lemma rstrip_app_blank (p : char -> bool) (t v : str) :
  forallb p v = true -> rstrip_by p (t ++ v) = rstrip_by p t.
Proof.
  intros H. unfold rstrip_by. rewrite rev_app_distr, dropwhile_app_all;
    [reflexivity|].
  rewrite forallb_forall in *. intros c Hc. apply H. now apply in_rev.
Qed.

(** Blanks after a string, and blanks before it, are trimmed away. *)
Lemma strip_app_blank (x v : str) :
  forallb isspace v = true -> strip (x ++ v) = strip x.
Proof.
  intros H. unfold strip, lstrip_by.
  destruct (dropwhile isspace x) as [|c t] eqn:E.
  - apply dropwhile_nil_all in E.
    rewrite (dropwhile_app_all _ _ _ E), (dropwhile_all _ _ H). reflexivity.
  - rewrite dropwhile_app_stop by (rewrite E; discriminate).
    rewrite E. now apply rstrip_app_blank.
Qed.

Lemma strip_blank_app (v x : str) :
  forallb isspace v = true -> strip (v ++ x) = strip x.
Proof.
  intros H. unfold strip, lstrip_by. now rewrite dropwhile_app_all.
Qed.

Lemma split_parts_prefix (sep : char) (v b : str) :
  contains sep v = false ->
  split_parts sep (v ++ b) =
    (v ++ fst (split_parts sep b), snd (split_parts sep b)).
Proof.
  induction v as [|c v IH]; intros H.
  - simpl. now destruct (split_parts sep b).
  - change (contains sep (c :: v)) with ((sep =? c) || contains sep v) in H.
    apply orb_false_iff in H as [Hc Hv].
    simpl. rewrite (IH Hv). rewrite N.eqb_sym in Hc. now rewrite Hc.
Qed.

(** The parts of a string with blanks put at its end: the same parts, the
    last one with the blanks after it. *)
Lemma split_parts_suffix (sep : char) (a v : str) :
  contains sep v = false ->
  Forall2 (fun x y => exists w, y = x ++ w /\ (w = [] \/ w = v))
    (fst (split_parts sep a) :: snd (split_parts sep a))
    (fst (split_parts sep (a ++ v)) :: snd (split_parts sep (a ++ v))).
Proof.
  intros Hv. induction a as [|c a IH].
  - pose proof (split_parts_prefix sep v [] Hv) as E.
    rewrite app_nil_r in E. cbn [split_parts fst snd] in E.
    rewrite app_nil_r in E. cbn [app]. rewrite E. cbn [split_parts fst snd].
    constructor; [|constructor]. exists v. split; [reflexivity | now right].
  - simpl. destruct (split_parts sep a) as [p ps].
    destruct (split_parts sep (a ++ v)) as [p' ps']. simpl in IH.
    destruct (c =? sep); simpl.
    + constructor; [|assumption]. exists []. split; [reflexivity | now left].
    + inversion IH as [|x y l l' (w & -> & Hw) Hrest]; subst.
      constructor; [|assumption]. exists w. split; [reflexivity | assumption].
Qed.

Lemma resume_lines_trailing_blank (a v : str) :
  forallb isspace v = true -> contains LF v = false ->
  resume_lines (a ++ v) = resume_lines a.
Proof.
  intros Hb Hv. unfold resume_lines, split.
  pose proof (split_parts_suffix LF a v Hv) as H.
  destruct (split_parts LF a) as [p ps].
  destruct (split_parts LF (a ++ v)) as [p' ps']. simpl in H.
  induction H as [|x y l l' (w & -> & Hw) _ IH]; [reflexivity|].
  assert (Hs : strip (x ++ w) = strip x).
  { destruct Hw as [->| ->]; [now rewrite app_nil_r | now apply strip_app_blank]. }
  simpl. rewrite Hs. destruct (negb (is_nil (strip x))); simpl;
    now rewrite ?Hs, IH.
Qed.

Lemma resume_lines_leading_blank (v b : str) :
  forallb isspace v = true -> contains LF v = false ->
  resume_lines (v ++ b) = resume_lines b.
Proof.
  intros Hb Hv. unfold resume_lines, split.
  rewrite (split_parts_prefix LF v b Hv).
  destruct (split_parts LF b) as [p ps]. simpl.
  rewrite (strip_blank_app _ _ Hb).
  destruct (negb (is_nil (strip p))); simpl; [|reflexivity].
  now rewrite (strip_blank_app _ _ Hb).
Qed.

Section BlanksAndBullets.

Variable upper_ext : char -> str.

(** X17. Blanks at the end of a line (the carriage return of a CRLF line
    ending, trailing spaces) and blanks at its start (indentation) change
    nothing: the lines are the same and so is the document. *)
Theorem blanks_around_lines_do_not_matter (a trailing leading b : str)
    (Htrailing : forallb isspace trailing = true)
    (Htrailing_lf : contains LF trailing = false)
    (Hleading : forallb isspace leading = true)
    (Hleading_lf : contains LF leading = false) :
  resume_lines ((a ++ trailing) ++ LF :: (leading ++ b)) = resume_lines (a ++ LF :: b)
  /\ create_pdf_resume upper_ext ((a ++ trailing) ++ LF :: (leading ++ b)) =
     create_pdf_resume upper_ext (a ++ LF :: b).
Proof.
  assert (H : resume_lines ((a ++ trailing) ++ LF :: (leading ++ b))
              = resume_lines (a ++ LF :: b)).
  { rewrite !resume_lines_app.
    rewrite (resume_lines_trailing_blank _ _ Htrailing Htrailing_lf).
    now rewrite (resume_lines_leading_blank _ _ Hleading Hleading_lf). }
  split; [exact H|]. now apply create_pdf_resume_same_lines.
Qed.

Lemma lstrip_chars_run (chars markers rest : str) :
  forallb (fun c => contains c chars) markers = true ->
  match rest with
  | [] => True
  | c :: _ => contains c chars = false
  end ->
  lstrip_chars chars (markers ++ rest) = rest.
Proof.
  intros Hm Hr. unfold lstrip_chars, lstrip_by.
  rewrite (dropwhile_app_all _ _ _ Hm).
  destruct rest as [|c rest]; [reflexivity|]. simpl. now rewrite Hr.
Qed.

(** X18. A bullet line loses its whole run of leading bullet signs, hyphens
    and spaces, not only the first marker: the bullet block carries the
    bullet sign, a space, and what comes after the run, trimmed. Under a
    record section this holds for the lines without a pipe. *)
Theorem bullet_marker_run_is_removed (pre : list str) (markers rest : str)
    (post : list str) (cs : str) (story0 : list flowable)
    (Hheader : is_section_header upper_ext (markers ++ rest) = false)
    (Hrecord : in_list cs RECORD_SECTIONS && contains PIPE (markers ++ rest) = false)
    (Hbullet : is_bullet_line (markers ++ rest) = true)
    (Hmarkers : forallb (fun c => contains c [BULLET; HYPHEN; SPACE]) markers = true)
    (Hrest : match rest with
             | [] => True
             | c :: _ => contains c [BULLET; HYPHEN; SPACE] = false
             end) :
  loop_body upper_ext (pre ++ (markers ++ rest) :: post)
    (mkScan (length pre) cs story0) =
  Returns (mkScan (length pre + 1) cs
             (story0 ++ [P (Paragraph (BULLET :: SPACE :: strip rest) bullet_style)])).
Proof.
  rewrite loop_body_middle, Hheader. unfold body_flowable.
  rewrite Hrecord, Hbullet, (lstrip_chars_run _ _ _ Hmarkers Hrest). reflexivity.
Qed.

End BlanksAndBullets.

Lemma blanks_around_lines_do_not_matter_witness :
  forallb isspace [13] = true /\ contains LF [13] = false
  /\ forallb isspace (py "  ") = true /\ contains LF (py "  ") = false
  /\ resume_lines ((py "Jane Doe" ++ [13]) ++ LF :: (py "  " ++ py "Engineer"))
     = resume_lines (py "Jane Doe" ++ LF :: py "Engineer")
  /\ create_pdf_resume upper_ext_id
       ((py "Jane Doe" ++ [13]) ++ LF :: (py "  " ++ py "Engineer")) =
     create_pdf_resume upper_ext_id (py "Jane Doe" ++ LF :: py "Engineer").
Proof.
  assert (H1 : forallb isspace [13] = true) by reflexivity.
  assert (H2 : contains LF [13] = false) by reflexivity.
  assert (H3 : forallb isspace (py "  ") = true) by reflexivity.
  assert (H4 : contains LF (py "  ") = false) by reflexivity.
  split; [exact H1|]. split; [exact H2|]. split; [exact H3|]. split; [exact H4|].
  apply (blanks_around_lines_do_not_matter upper_ext_id (py "Jane Doe") [13]
           (py "  ") (py "Engineer") H1 H2 H3 H4).
Defined.

Lemma bullet_marker_run_is_removed_witness :
  is_section_header upper_ext_id (py "- - " ++ py "Built things") = false
  /\ in_list (py "PROFILE") RECORD_SECTIONS
     && contains PIPE (py "- - " ++ py "Built things") = false
  /\ is_bullet_line (py "- - " ++ py "Built things") = true
  /\ forallb (fun c => contains c [BULLET; HYPHEN; SPACE]) (py "- - ") = true
  /\ loop_body upper_ext_id ([] ++ (py "- - " ++ py "Built things") :: [])
       (mkScan (length (@nil str)) (py "PROFILE") []) =
     Returns (mkScan (length (@nil str) + 1) (py "PROFILE")
                ([] ++ [P (Paragraph (BULLET :: SPACE :: strip (py "Built things"))
                                     bullet_style)])).
Proof.
  assert (H1 : is_section_header upper_ext_id (py "- - " ++ py "Built things") = false)
    by (vm_compute; reflexivity).
  assert (H2 : in_list (py "PROFILE") RECORD_SECTIONS
               && contains PIPE (py "- - " ++ py "Built things") = false)
    by (vm_compute; reflexivity).
  assert (H3 : is_bullet_line (py "- - " ++ py "Built things") = true)
    by (vm_compute; reflexivity).
  assert (H4 : forallb (fun c => contains c [BULLET; HYPHEN; SPACE]) (py "- - ") = true)
    by (vm_compute; reflexivity).
  assert (H5 : match py "Built things" with
               | [] => True
               | c :: _ => contains c [BULLET; HYPHEN; SPACE] = false
               end) by (vm_compute; reflexivity).
  split; [exact H1|]. split; [exact H2|]. split; [exact H3|]. split; [exact H4|].
  apply (bullet_marker_run_is_removed upper_ext_id [] (py "- - ") (py "Built things")
           [] (py "PROFILE") [] H1 H2 H3 H4 H5).
Defined.

(** ** The header lines, and what can fail *)

Lemma dropwhile_head (p : char -> bool) (s : str) (c : char) (t : str) :
  dropwhile p s = c :: t -> p c = false.
Proof.
  induction s as [|x s IH]; simpl; [discriminate|].
  destruct (p x) eqn:E; [assumption|]. now intros [= <- _].
Qed.

(** A string is trimmed to nothing exactly when it is made of blanks. *)
Lemma strip_nil_blank (s : str) : is_nil (strip s) = forallb isspace s.
Proof.
  destruct (forallb isspace s) eqn:E.
  - now rewrite (strip_blank _ E).
  - destruct (strip s) eqn:Es; [|reflexivity].
    unfold strip, rstrip_by, lstrip_by in Es.
    apply (f_equal (@rev char)) in Es. rewrite rev_involutive in Es.
    simpl in Es. apply dropwhile_nil_all in Es.
    destruct (dropwhile isspace s) as [|c t] eqn:Ed.
    + apply dropwhile_nil_all in Ed. congruence.
    + apply dropwhile_head in Ed.
      rewrite forallb_forall in Es.
      rewrite (Es c) in Ed; [discriminate|].
      apply -> in_rev. now left.
Qed.

(** Splitting undoes joining: the parts of the join of strings without the
    separator are these strings. *)
Lemma split_join (sep : char) (raw : str) (raws : list str) :
  Forall (fun raw => contains sep raw = false) (raw :: raws) ->
  split sep (join [sep] (raw :: raws)) = raw :: raws.
Proof.
  revert raw. induction raws as [|raw' raws IH]; intros raw H;
    inversion H as [|? ? Hraw Hrest]; subst.
  - cbn [join]. unfold split.
    pose proof (split_parts_prefix sep raw [] Hraw) as E.
    rewrite app_nil_r in E. rewrite E. cbn [split_parts fst snd].
    now rewrite app_nil_r.
  - change (join [sep] (raw :: raw' :: raws))
      with (raw ++ sep :: join [sep] (raw' :: raws)).
    rewrite split_app_sep, (IH raw' Hrest).
    unfold split.
    pose proof (split_parts_prefix sep raw [] Hraw) as E.
    rewrite app_nil_r in E. rewrite E. cbn [split_parts fst snd].
    now rewrite app_nil_r.
Qed.

(** The lines of a text given by its raw lines: the raw lines that are not
    blank, trimmed, in their order. *)
Lemma resume_lines_join (raws : list str) :
  Forall (fun raw => contains LF raw = false) raws ->
  resume_lines (join [LF] raws) =
    map strip (filter (fun raw => negb (forallb isspace raw)) raws).
Proof.
  intros H. destruct raws as [|raw raws]; [reflexivity|].
  unfold resume_lines. rewrite (split_join _ _ _ H).
  f_equal. apply filter_ext. intros a. now rewrite strip_nil_blank.
Qed.

Lemma header_blocks_firstn (lines : list str) :
  header_blocks lines =
    map (fun '(line, sty) => P (Paragraph line sty))
        (combine (firstn 3 lines) [name_style; title_style; contact_style]).
Proof.
  unfold header_blocks.
  destruct lines as [|l0 [|l1 [|l2 rest]]]; simpl; try reflexivity.
  now rewrite combine_nil.
Qed.

Section HeaderLines.

Variable upper_ext : char -> str.
Variable paragraph_error : str -> style -> option exn.
Variable build_error : list flowable -> option exn.

(** The story of a text: the header blocks of its first up-to-three lines,
    then the blocks of the scan of the lines from the fourth on, started
    with an empty [current_section]. *)
Lemma create_pdf_resume_headers (resume_text : str) :
  exists st,
    while_loop upper_ext (length (skipn 3 (resume_lines resume_text)))
      (skipn 3 (resume_lines resume_text)) (mkScan 0 [] []) = Returns st
    /\ length (story st) = (length (resume_lines resume_text) - 3)%nat
    /\ create_pdf_resume upper_ext resume_text =
         Returns (header_blocks (resume_lines resume_text) ++ story st).
Proof.
  set (lines := resume_lines resume_text).
  destruct (while_loop_total upper_ext (length (skipn 3 lines)) (skipn 3 lines)
              (mkScan 0 [] [])) as (st & Hst); [simpl; lia|].
  exists st. split; [assumption|].
  destruct (while_loop_story_length _ _ _ _ _ Hst) as (blocks & Hb & Hlen).
  cbn [i story app] in Hb, Hlen. rewrite Nat.sub_0_r, length_skipn in Hlen.
  split.
  - rewrite Hb, Hlen. reflexivity.
  - rewrite create_pdf_resume_scan. fold lines.
    assert (Hmore : while_loop upper_ext (length lines) (skipn 3 lines)
                      (mkScan 0 [] []) = Returns st).
    { apply (while_loop_more_fuel _ _ _ _ _ _ Hst). rewrite length_skipn. lia. }
    pose proof (while_loop_shift _ _ (firstn 3 lines) _ (header_blocks lines)
                  _ _ Hmore) as Hs.
    rewrite firstn_skipn, length_firstn in Hs.
    cbn [i current_section story] in Hs.
    rewrite Nat.add_0_r, app_nil_r in Hs. rewrite Hs. reflexivity.
Qed.

(** C7. A text is the join, with line feeds, of its raw lines, none of which
    has a line feed in it. The lines the formatter works on are the raw
    lines that are not blank (not empty and not made of whitespace only),
    each trimmed, in their order. Whatever they say, the first
    up-to-three of these lines become the name, title and contact blocks,
    one block per line there is and none beyond; the blocks after them are
    the scan of the lines from the fourth on, started with an empty
    [current_section], one block per line. This is the story that the
    function hands to the layout library, paragraph by paragraph and then
    as a whole: the function returns it unless the library raises. *)
Theorem header_lines_positional (raws lines : list str)
    (Hraws : Forall (fun raw => contains LF raw = false) raws)
    (Hlines : lines =
              map strip (filter (fun raw => negb (forallb isspace raw)) raws)) :
  resume_lines (join [LF] raws) = lines
  /\ (exists body,
        (exists st,
            while_loop upper_ext (length (skipn 3 lines)) (skipn 3 lines)
              (mkScan 0 [] []) = Returns st
            /\ story st = body)
        /\ length body = (length lines - 3)%nat
        /\ Rendered.create_pdf_resume upper_ext paragraph_error build_error
             (join [LF] raws) =
             rendered paragraph_error build_error
               (map (fun '(line, sty) => P (Paragraph line sty))
                    (combine (firstn 3 lines)
                             [name_style; title_style; contact_style])
                ++ body))
  /\ (forall resume_text,
         exists raws',
           Forall (fun raw => contains LF raw = false) raws'
           /\ resume_text = join [LF] raws').
Proof.
  pose proof (resume_lines_join raws Hraws) as Hl. rewrite <- Hlines in Hl.
  split; [exact Hl|]. split.
  - destruct (create_pdf_resume_headers (join [LF] raws)) as (st & Hst & Hlen & Hs).
    rewrite Hl in Hst, Hlen, Hs. rewrite header_blocks_firstn in Hs.
    exists (story st). split; [now exists st|]. split; [assumption|].
    destruct (create_pdf_resume_rendered upper_ext paragraph_error build_error
                (join [LF] raws)) as (story' & Hs' & Hr).
    rewrite Hs in Hs'. injection Hs' as <-. exact Hr.
  - intros resume_text.
    destruct (split_spec LF resume_text) as (p & ps & _ & Hj & Hf & _).
    exists (p :: ps). split; [assumption | now symmetry].
Qed.

(** C10. The two partial operations of the scan are guarded: a line with a
    pipe splits into at least two parts, so its first part exists; a line
    with a colon splits at the first colon into exactly two parts, so the
    two-way unpacking succeeds. So no branch of the scan raises an exception
    of its own, and the loop ends within one iteration per line: for every
    text there is a story of one block per line, each block made of its
    line, and the function hands every paragraph of it, and then the whole
    of it, to the layout library. The function returns this story unless
    the library raises, and then it raises the exception of the library:
    that of the first paragraph the library rejects, or else that of the
    layout. *)
Theorem formatter_fails_only_in_library :
  (forall line, contains PIPE line = true ->
      (2 <= length (map strip (split PIPE line)))%nat
      /\ exists left, getitem (map strip (split PIPE line)) 0 = Returns left)
  /\ (forall line, contains COLON line = true ->
        length (split_max1 COLON line) = 2%nat
        /\ exists cat skills,
             unpack2 (split_max1 COLON line) = Returns (cat, skills))
  /\ (forall cs line,
        exists b,
          body_flowable cs line = Returns b
          /\ Rendered.body_flowable paragraph_error cs line =
               match flowable_error paragraph_error b with
               | Some e => Raises e
               | None => Returns b
               end)
  /\ (forall resume_text,
        exists story,
          length story = length (resume_lines resume_text)
          /\ Forall2 (block_of_line upper_ext) (resume_lines resume_text) story
          /\ Rendered.create_pdf_resume upper_ext paragraph_error build_error
               resume_text =
             rendered paragraph_error build_error story
          /\ (first_error (flowable_error paragraph_error) story = None ->
              build_error story = None ->
              Rendered.create_pdf_resume upper_ext paragraph_error build_error
                resume_text = Returns story)
          /\ (Rendered.create_pdf_resume upper_ext paragraph_error build_error
                resume_text = Returns story
              \/ exists e,
                   Rendered.create_pdf_resume upper_ext paragraph_error
                     build_error resume_text = Raises e
                   /\ (first_error (flowable_error paragraph_error) story = Some e
                       \/ build_error story = Some e))).
Proof.
  split; [|split; [|split]].
  - intros line H.
    destruct (split_spec PIPE line) as (p & ps & -> & _ & _ & Hne).
    split.
    + destruct ps; [now elim Hne|]. simpl. lia.
    + simpl. eexists; reflexivity.
  - intros line H.
    destruct (split_max1_spec COLON line H) as (a & b & -> & _).
    split; [reflexivity|]. do 2 eexists; reflexivity.
  - intros cs line.
    destruct (body_flowable_total cs line) as (b & Hb).
    exists b. split; [assumption|]. now apply body_flowable_rendered.
  - intros resume_text.
    destruct (create_pdf_resume_rendered upper_ext paragraph_error build_error
                resume_text) as (story & Hs & Hr).
    destruct (create_pdf_resume_blocks upper_ext resume_text)
      as (blocks & Hb & HF).
    rewrite Hs in Hb. injection Hb as <-.
    exists story. split; [symmetry; exact (Forall2_length HF)|].
    split; [assumption|]. split; [assumption|].
    rewrite Hr. unfold rendered. split.
    + now intros -> ->.
    + destruct (first_error (flowable_error paragraph_error) story) as [e|].
      * right. exists e. split; [reflexivity | now left].
      * destruct (build_error story) as [e|].
        -- right. exists e. split; [reflexivity | now right].
        -- now left.
Qed.

End HeaderLines.

(** The markup "<b>unclosed" as a text: the code builds the story of its one
    line, and the function raises the [ValueError] of the library, which
    rejects the paragraph. The same happens with the markup below the
    header lines. *)
Lemma formatter_raises_on_rejected_markup :
  create_pdf_resume upper_ext_id (py "<b>unclosed") =
    Returns [P (Paragraph (py "<b>unclosed") name_style)]
  /\ Rendered.create_pdf_resume upper_ext_id rejects_unclosed_tag builds_all
       (py "<b>unclosed") = Raises ValueError
  /\ Rendered.create_pdf_resume upper_ext_id rejects_unclosed_tag builds_all
       (join [LF] [py "Jane Doe"; py "Engineer"; py "jane@x.com"; py "PROFILE";
                   py "<b>unclosed"]) = Raises ValueError.
Proof. repeat split; vm_compute; reflexivity. Qed.

Lemma header_lines_positional_witness :
  Forall (fun raw => contains LF raw = false)
    [py "  SKILLS "; []; py "PROFILE"; [SPACE; 9]; py "Python: good" ++ [13]]
  /\ resume_lines
       (join [LF]
          [py "  SKILLS "; []; py "PROFILE"; [SPACE; 9]; py "Python: good" ++ [13]])
     = [py "SKILLS"; py "PROFILE"; py "Python: good"]
  /\ exists body,
       (exists st,
           while_loop upper_ext_id
             (length (skipn 3 [py "SKILLS"; py "PROFILE"; py "Python: good"]))
             (skipn 3 [py "SKILLS"; py "PROFILE"; py "Python: good"])
             (mkScan 0 [] []) = Returns st
           /\ story st = body)
       /\ length body
          = (length [py "SKILLS"; py "PROFILE"; py "Python: good"] - 3)%nat
       /\ Rendered.create_pdf_resume upper_ext_id rejects_unclosed_tag builds_all
            (join [LF]
               [py "  SKILLS "; []; py "PROFILE"; [SPACE; 9];
                py "Python: good" ++ [13]]) =
            rendered rejects_unclosed_tag builds_all
              (map (fun '(line, sty) => P (Paragraph line sty))
                   (combine (firstn 3 [py "SKILLS"; py "PROFILE"; py "Python: good"])
                            [name_style; title_style; contact_style])
               ++ body).
Proof.
  assert (H1 : Forall (fun raw => contains LF raw = false)
                 [py "  SKILLS "; []; py "PROFILE"; [SPACE; 9];
                  py "Python: good" ++ [13]])
    by (repeat constructor).
  assert (H2 : [py "SKILLS"; py "PROFILE"; py "Python: good"] =
               map strip
                 (filter (fun raw => negb (forallb isspace raw))
                    [py "  SKILLS "; []; py "PROFILE"; [SPACE; 9];
                     py "Python: good" ++ [13]]))
    by (vm_compute; reflexivity).
  split; [exact H1|].
  destruct (header_lines_positional upper_ext_id rejects_unclosed_tag builds_all
              _ _ H1 H2) as (Hlines & Hbody & _).
  split; [exact Hlines | exact Hbody].
Defined.

(** Three lines that are section names, and a fourth: the first three are
    the name, the title and the contact line, and only the fourth is a
    section header. *)
Example section_names_as_header_lines :
  create_pdf_resume upper_ext_id
    (join [LF] [py "SKILLS"; py "PROFILE"; py "EDUCATION"; py "SKILLS"]) =
  Returns [P (Paragraph (py "SKILLS") name_style);
           P (Paragraph (py "PROFILE") title_style);
           P (Paragraph (py "EDUCATION") contact_style);
           P (Paragraph (py "SKILLS") section_title_style)].
Proof. vm_compute. reflexivity. Qed.

Lemma formatter_fails_only_in_library_witness :
  contains PIPE (py "Engineer | Acme Corp") = true
  /\ contains COLON (py "Languages: Python, Go") = true
  /\ (2 <= length (map strip (split PIPE (py "Engineer | Acme Corp"))))%nat
  /\ length (split_max1 COLON (py "Languages: Python, Go")) = 2%nat
  /\ exists story,
       length story = length (resume_lines example_text)
       /\ Rendered.create_pdf_resume upper_ext_id rejects_unclosed_tag builds_all
            example_text =
          rendered rejects_unclosed_tag builds_all story.
Proof.
  assert (Hp : contains PIPE (py "Engineer | Acme Corp") = true)
    by (vm_compute; reflexivity).
  assert (Hc : contains COLON (py "Languages: Python, Go") = true)
    by (vm_compute; reflexivity).
  destruct (formatter_fails_only_in_library upper_ext_id rejects_unclosed_tag
              builds_all) as (Hpipe & Hcolon & _ & Htotal).
  split; [exact Hp|]. split; [exact Hc|].
  split; [exact (proj1 (Hpipe _ Hp))|].
  split; [exact (proj1 (Hcolon _ Hc))|].
  destruct (Htotal example_text) as (story & Hlen & _ & Hr & _).
  exists story. split; [exact Hlen | exact Hr].
Defined.
